(** * The chat-relay glue of [src/app.py], embedded and verified

    The program is a thin orchestration layer: a credential store, a lazily
    initialised session-state dictionary, a message renderer, a relay that
    re-streams the output of an external agent loop as server-sent events,
    and a supervisory loop that alternates a planning model with the agent
    loop.  Each of these is embedded below as an executable definition that
    follows the Python text statement by statement; Python exceptions are
    explicit results, mutable dictionaries are finite maps threaded through a
    state-and-exception monad, and the external services (file system,
    agent loop, planning model) are oracles supplied by the caller. *)

From Stdlib Require Import ZArith String Ascii List Lia.
From stdpp Require Import gmap strings list.

(** ** Python exceptions and the state-and-exception monad *)

(** The exception classes that the embedded code can raise or observe.
    [ExternalError] stands for whatever an external library (the agent loop,
    an HTTP client) raises; only its [str()] is ever inspected. *)
Inductive exn : Type :=
  | KeyError (key : string)
  | TypeError (msg : string)
  | AttributeError (msg : string)
  | UnboundLocalError (name : string)
  | PermissionError (path : string)
  | FileNotFoundError (path : string)
  | JSONDecodeError (msg : string)
  | BinasciiError (msg : string)
  | HTTPException (status_code : Z) (detail : string)
  | ExternalError (msg : string).

(** [str(e)] as used by the f-strings of the relay loops. *)
Definition str_exn (e : exn) : string :=
  match e with
  | KeyError k => "'" +:+ k +:+ "'"
  | TypeError m | AttributeError m | JSONDecodeError m
  | BinasciiError m | ExternalError m => m
  | UnboundLocalError n =>
      "cannot access local variable '" +:+ n
        +:+ "' where it is not associated with a value"
  | PermissionError p => "[Errno 13] Permission denied: '" +:+ p +:+ "'"
  | FileNotFoundError p =>
      "[Errno 2] No such file or directory: '" +:+ p +:+ "'"
  | HTTPException _ d => d
  end.

Inductive result (A : Type) : Type :=
  | Ok (a : A)
  | Raise (e : exn).
Arguments Ok {A} a.
Arguments Raise {A} e.

(** A computation over a mutable store [S]: the store is returned in every
    case, because what a Python statement has already written stays written
    when a later statement raises. *)
Definition M (S A : Type) : Type := S → S * result A.

Global Instance M_ret {S} : MRet (M S) := λ A a s, (s, Ok a).
Global Instance M_bind {S} : MBind (M S) := λ A B f m s,
  match m s with
  | (s', Ok a) => f a s'
  | (s', Raise e) => (s', Raise e)
  end.

Definition raise {S A} (e : exn) : M S A := λ s, (s, Raise e).
Definition get {S} : M S S := λ s, (s, Ok s).
Definition modify {S} (f : S → S) : M S unit := λ s, (f s, Ok tt).

(** [try: body  except Exception as e: handler e]. *)
Definition try_except {S A} (body : M S A) (handler : exn → M S A) : M S A :=
  λ s, match body s with
       | (s', Ok a) => (s', Ok a)
       | (s', Raise e) => handler e s'
       end.

(** ** Text

    Python [str] values are modelled as [string]; the operations that the
    program applies to them are defined on the underlying character lists. *)
Module Text.

Definition chars (s : string) : list ascii := list_ascii_of_string s.
Definition of_chars (l : list ascii) : string := string_of_list_ascii l.

(** [str.isspace] on the ASCII range: TAB, LF, VT, FF, CR, the four
    separators FS, GS, RS, US, and the space. *)
Definition is_space (c : ascii) : bool :=
  let n := nat_of_ascii c in
  ((9 <=? n) && (n <=? 13)) || ((28 <=? n) && (n <=? 32)).

Fixpoint lstrip_chars (l : list ascii) : list ascii :=
  match l with
  | c :: l' => if is_space c then lstrip_chars l' else l
  | [] => []
  end.
Definition rstrip_chars (l : list ascii) : list ascii :=
  rev (lstrip_chars (rev l)).
Definition strip_chars (l : list ascii) : list ascii :=
  rstrip_chars (lstrip_chars l).

(** [s.strip()] *)
Definition strip (s : string) : string := of_chars (strip_chars (chars s)).

(** [c.upper()] on the ASCII range. *)
Definition upper_char (c : ascii) : ascii :=
  let n := nat_of_ascii c in
  if (97 <=? n) && (n <=? 122) then ascii_of_nat (n - 32) else c.

(** [s.upper()] *)
Definition upper (s : string) : string :=
  of_chars (map upper_char (chars s)).

Fixpoint is_prefix_chars (p l : list ascii) : bool :=
  match p, l with
  | [], _ => true
  | a :: p', b :: l' => bool_decide (a = b) && is_prefix_chars p' l'
  | _ :: _, [] => false
  end.
Fixpoint contains_chars (needle hay : list ascii) : bool :=
  is_prefix_chars needle hay ||
  match hay with
  | [] => false
  | _ :: hay' => contains_chars needle hay'
  end.

(** [needle in hay] *)
Definition contains (needle hay : string) : bool :=
  contains_chars (chars needle) (chars hay).

(** Truth value of a [str]: non-empty. *)
Definition truthy (s : string) : bool := negb (bool_decide (s = "")).

End Text.

(** ** Credential store: [load_from_storage] and [save_to_storage] *)
Module Storage.

(** The operations of [pathlib.Path] that the store calls on
    [CONFIG_DIR / filename], each of which may raise. *)
Class FileSystem (FS : Type) : Type := {
  (** [CONFIG_DIR.mkdir(parents=True, exist_ok=True)] *)
  fs_mkdir : M FS unit;
  (** [file_path.write_text(data)] *)
  fs_write_text : string → string → M FS unit;
  (** [file_path.chmod(0o600)] *)
  fs_chmod : string → M FS unit;
  (** [file_path.exists()] *)
  fs_exists : string → M FS bool;
  (** [file_path.read_text()] *)
  fs_read_text : string → M FS string
}.

Section store.
Context {FS : Type} `{FileSystem FS}.

(** The body of the [try] of [load_from_storage]: [Some data] is the
    [return data] inside it, [None] is falling out of the [try]. *)
Definition load_body (filename : string) : M FS (option string) :=
  present ← fs_exists filename;
  if (present : bool) then
    text ← fs_read_text filename;
    let data := Text.strip text in
    if Text.truthy data then mret (Some data) else mret None
  else mret None.

Definition load_from_storage (filename : string) : M FS (option string) :=
  try_except (load_body filename) (λ _, mret None).


End store.

(** *** A file system with permissions

    The configuration directory of the host, as far as the store can
    observe it: whether it exists, whether entries may be created in it,
    and for each file its text and its owner permission bits. *)
Record file : Type := File {
  f_text : string;
  f_readable : bool;
  f_writable : bool
}.

Record config_dir : Type := ConfigDir {
  d_writable : bool;
  d_files : gmap string file
}.

Record host : Type := Host {
  home_writable : bool;
  config : option config_dir
}.

Definition host_mkdir : M host unit := λ h,
  match config h with
  | Some _ => (h, Ok tt)
  | None =>
      if home_writable h
      then (Host (home_writable h) (Some (ConfigDir true ∅)), Ok tt)
      else (h, Raise (PermissionError "~/.anthropic"))
  end.

Definition host_write_text (filename data : string) : M host unit := λ h,
  match config h with
  | None => (h, Raise (FileNotFoundError filename))
  | Some d =>
      match d_files d !! filename with
      | Some f =>
          if f_writable f
          then (Host (home_writable h)
                  (Some (ConfigDir (d_writable d)
                           (<[filename := File data (f_readable f) true]>
                              (d_files d)))), Ok tt)
          else (h, Raise (PermissionError filename))
      | None =>
          if d_writable d
          then (Host (home_writable h)
                  (Some (ConfigDir (d_writable d)
                           (<[filename := File data true true]> (d_files d)))),
                Ok tt)
          else (h, Raise (PermissionError filename))
      end
  end.

Definition host_chmod (filename : string) : M host unit := λ h,
  match config h with
  | None => (h, Raise (FileNotFoundError filename))
  | Some d =>
      match d_files d !! filename with
      | Some f =>
          (Host (home_writable h)
             (Some (ConfigDir (d_writable d)
                      (<[filename := File (f_text f) true true]> (d_files d)))),
           Ok tt)
      | None => (h, Raise (FileNotFoundError filename))
      end
  end.

Definition host_exists (filename : string) : M host bool := λ h,
  match config h with
  | None => (h, Ok false)
  | Some d => (h, Ok (bool_decide (is_Some (d_files d !! filename))))
  end.

Definition host_read_text (filename : string) : M host string := λ h,
  match config h with
  | None => (h, Raise (FileNotFoundError filename))
  | Some d =>
      match d_files d !! filename with
      | Some f =>
          if f_readable f then (h, Ok (f_text f))
          else (h, Raise (PermissionError filename))
      | None => (h, Raise (FileNotFoundError filename))
      end
  end.

(** The file that [CONFIG_DIR / filename] names, if there is one. *)
Definition file_of (h : host) (filename : string) : option file :=
  config h ≫= λ d, d_files d !! filename.


Global Instance host_fs : FileSystem host := {|
  fs_mkdir := host_mkdir;
  fs_write_text := host_write_text;
  fs_chmod := host_chmod;
  fs_exists := host_exists;
  fs_read_text := host_read_text
|}.

End Storage.

(** ** Session state and its initialiser [setup_state] *)
Module State.

(** [class Sender(StrEnum)] *)
Inductive Sender : Type := USER | BOT | TOOL.

Definition Sender_value (s : Sender) : string :=
  match s with USER => "user" | BOT => "assistant" | TOOL => "tool" end.

(** Modelled from the spec: the class [ToolResult] of
    [computer_use_demo.tools], which is imported but not part of the
    sources; the outcome of a tool invocation is an optional text output,
    an optional error text and an optional base64-encoded image payload. *)
Record ToolResult : Type := mkToolResult {
  output : option string;
  error : option string;
  base64_image : option string
}.

(** The content blocks that a message of the history carries. *)
Inductive block : Type :=
  | TextBlock (text : string)
  | ToolUseBlock (name input : string)
  | ToolResultBlock (tool_use_id : string) (r : ToolResult).

(** An entry of [state["messages"]]: [{"role": ..., "content": [...]}]. *)
Record Message : Type := mkMessage {
  role : Sender;
  content : list block
}.

(** Objects stored in the [tools] and [responses] dictionaries. *)
Inductive obj : Type :=
  | ObjToolResult (r : ToolResult)
  | ObjResponse (raw : string).

(** The Python values that the session state holds. *)
Inductive value : Type :=
  | VNone
  | VBool (b : bool)
  | VInt (z : Z)
  | VStr (s : string)
  | VList (l : list Message)
  | VDict (d : gmap string obj).

(** Truth value of a Python value ([bool(v)]). *)
Definition truthy (v : value) : bool :=
  match v with
  | VNone => false
  | VBool b => b
  | VInt z => negb (z =? 0)%Z
  | VStr s => Text.truthy s
  | VList l => negb (bool_decide (l = []))
  | VDict d => negb (bool_decide (d = ∅))
  end.

Abbreviation state := (gmap string value).

(** What the program imports from [computer_use_demo.loop] and reads in
    [setup_state]: the provider-to-model table and the member
    [APIProvider.ANTHROPIC] of the provider enumeration. *)
Record LoopModule : Type := {
  PROVIDER_TO_DEFAULT_MODEL_NAME : gmap string string;
  APIProvider_ANTHROPIC : string
}.

(** The part of the host that [setup_state] reads. *)
Record Env : Type := {
  getenv : string → option string;
  platform_system : string;
  disk : Storage.host
}.

Definition ANTHROPIC_KEY : string :=
  "*************************FILL THE API KEY************************".

Definition newline : string := String "010" "".

(** [if key not in state: body] *)
Definition guard (key : string) (body : M state unit) : M state unit :=
  st ← get;
  match st !! key with
  | Some _ => mret tt
  | None => body
  end.

(** [state[key] = v] *)
Definition assign (key : string) (v : value) : M state unit :=
  modify (insert key v).

(** [state[key]], raising [KeyError] on a missing key. *)
Definition subscript (key : string) : M state value :=
  st ← get;
  match st !! key with
  | Some v => mret v
  | None => raise (KeyError key)
  end.

(** [state[key] += suffix] for a text [suffix]. *)
Definition augment (key suffix : string) : M state unit :=
  v ← subscript key;
  match v with
  | VStr s => assign key (VStr (s +:+ suffix))
  | _ => raise (TypeError "unsupported operand type(s) for +=")
  end.

(** A sequence of tests [if key not in state: body]. *)
Definition run_steps (steps : list (string * M state unit)) : M state unit :=
  foldr (λ step rest, guard step.1 step.2;; rest) (mret tt) steps.

(** A guarded body is well behaved for a table [dflt] of defaults when,
    run on a state without its key, it either adds exactly that key, with
    the default that any extension of the resulting state determines, or
    raises and changes nothing. *)
Definition body_ok (dflt : state → string → option value)
    (step : string * M state unit) : Prop :=
  ∀ st, st !! step.1 = None →
    match step.2 st with
    | (s1, Ok _) =>
        ∃ v, s1 = <[step.1 := v]> st ∧ ∀ st', s1 ⊆ st' → dflt st' step.1 = Some v
    | (s1, Raise _) => s1 = st
    end.

Section setup.
Variable L : LoopModule.
Variable env : Env.

(** [PROVIDER_TO_DEFAULT_MODEL_NAME[p]]: a key that is not in the table
    is a [KeyError]; a list or a dictionary is not hashable. *)
Definition lookup_model (p : value) : result string :=
  match p with
  | VStr s =>
      match PROVIDER_TO_DEFAULT_MODEL_NAME L !! s with
      | Some m => Ok m
      | None => Raise (KeyError s)
      end
  | VList _ | VDict _ => Raise (TypeError "unhashable type")
  | VNone => Raise (KeyError "None")
  | VBool _ => Raise (KeyError "bool")
  | VInt _ => Raise (KeyError "int")
  end.

Definition _reset_model : M state unit :=
  p ← subscript "provider";
  match lookup_model p with
  | Ok m => assign "model" (VStr m)
  | Raise e => raise e
  end.

(** [os.getenv("API_PROVIDER", "anthropic") or APIProvider.ANTHROPIC] *)
Definition default_provider : string :=
  let v := default "anthropic" (getenv env "API_PROVIDER") in
  if Text.truthy v then v else APIProvider_ANTHROPIC L.

Definition device_os_name : string :=
  if bool_decide (platform_system env = "Windows") then "Windows"
  else if bool_decide (platform_system env = "Darwin") then "Mac"
  else "Linux".

(** [load_from_storage("system_prompt") or ""], read from the disk of
    the host. *)
Definition stored_system_prompt : result string :=
  match (Storage.load_from_storage "system_prompt" (disk env)).2 with
  | Ok (Some s) => Ok (if Text.truthy s then s else "")
  | Ok None => Ok ""
  | Raise e => Raise e
  end.

Definition init_custom_system_prompt : M state unit :=
  match stored_system_prompt with
  | Raise e => raise e
  | Ok s =>
      assign "custom_system_prompt" (VStr s);;
      augment "custom_system_prompt"
        (newline +:+ newline +:+ "NOTE: you are operating a "
           +:+ device_os_name +:+ " machine")
  end.

Definition setup_state : M state unit :=
  guard "messages" (assign "messages" (VList []));;
  guard "api_key" (assign "api_key" (VStr ANTHROPIC_KEY));;
  guard "provider" (assign "provider" (VStr default_provider));;
  guard "provider_radio"
    (p ← subscript "provider"; assign "provider_radio" p);;
  guard "model" _reset_model;;
  guard "auth_validated" (assign "auth_validated" (VBool false));;
  guard "responses" (assign "responses" (VDict ∅));;
  guard "tools" (assign "tools" (VDict ∅));;
  guard "only_n_most_recent_images"
    (assign "only_n_most_recent_images" (VInt 2));;
  guard "custom_system_prompt" init_custom_system_prompt;;
  guard "hide_images" (assign "hide_images" (VBool false)).

(** The keys that [setup_state] ensures, in the order of its tests. *)
Definition required_keys : list string :=
  [ "messages"; "api_key"; "provider"; "provider_radio"; "model";
    "auth_validated"; "responses"; "tools"; "only_n_most_recent_images";
    "custom_system_prompt"; "hide_images" ].

(** The default of each required key.  Two of them are derived from
    the provider that the state holds: [provider_radio] copies it and
    [model] is its entry in the provider-to-model table. *)
Definition default_of (st : state) (key : string) : option value :=
  if bool_decide (key = "messages") then Some (VList [])
  else if bool_decide (key = "api_key") then Some (VStr ANTHROPIC_KEY)
  else if bool_decide (key = "provider") then Some (VStr default_provider)
  else if bool_decide (key = "provider_radio") then st !! "provider"
  else if bool_decide (key = "model") then
    match st !! "provider" with
    | Some p =>
        match lookup_model p with Ok m => Some (VStr m) | Raise _ => None end
    | None => None
    end
  else if bool_decide (key = "auth_validated") then Some (VBool false)
  else if bool_decide (key = "responses") then Some (VDict ∅)
  else if bool_decide (key = "tools") then Some (VDict ∅)
  else if bool_decide (key = "only_n_most_recent_images") then Some (VInt 2)
  else if bool_decide (key = "custom_system_prompt") then
    match stored_system_prompt with
    | Ok s =>
        Some (VStr (s +:+ newline +:+ newline
                      +:+ "NOTE: you are operating a "
                      +:+ device_os_name +:+ " machine"))
    | Raise _ => None
    end
  else if bool_decide (key = "hide_images") then Some (VBool false)
  else None.

(** The tests of [setup_state] as a list of guarded bodies, in order. *)
Definition setup_steps : list (string * M state unit) :=
  [ ("messages", assign "messages" (VList []));
    ("api_key", assign "api_key" (VStr ANTHROPIC_KEY));
    ("provider", assign "provider" (VStr default_provider));
    ("provider_radio", p ← subscript "provider"; assign "provider_radio" p);
    ("model", _reset_model);
    ("auth_validated", assign "auth_validated" (VBool false));
    ("responses", assign "responses" (VDict ∅));
    ("tools", assign "tools" (VDict ∅));
    ("only_n_most_recent_images", assign "only_n_most_recent_images" (VInt 2));
    ("custom_system_prompt", init_custom_system_prompt);
    ("hide_images", assign "hide_images" (VBool false)) ].

(** The provider that [_reset_model] will read: the one the state
    holds, or the default when the state holds none. *)
Definition provider_after (st : state) : value :=
  default (VStr default_provider) (st !! "provider").

End setup.

End State.

(** Exceptions without a store: the result of a pure Python expression. *)
Global Instance result_ret : MRet result := λ A a, Ok a.
Global Instance result_bind : MBind result := λ A B f r,
  match r with
  | Ok a => f a
  | Raise e => Raise e
  end.

(** ** Message renderer: [_render_message] *)
Module Render.
Import State.

(** The shapes of the [message] argument:
    [str | BetaTextBlock | BetaToolUseBlock | ToolResult].  [MToolResult]
    covers every object for which [is_tool_result] holds (an instance of
    [ToolResult], or of a class named [ToolResult] or [CLIResult]);
    [MTextBlock] covers [BetaTextBlock] and [TextBlock]; [MToolUseBlock]
    covers [BetaToolUseBlock] and [ToolUseBlock], its [input] being the
    text that the f-string prints for the payload. *)
Inductive message : Type :=
  | MStr (s : string)
  | MTextBlock (text : string)
  | MToolUseBlock (name input : string)
  | MToolResult (r : ToolResult).

(** What the renderer hands to the user interface. *)
Inductive displayable : Type :=
  | DText (s : string)
  | DBytes (b : list Byte.byte).

(** [hasattr(message, name)] for a [ToolResult]: the three fields are
    declared by the class, so each instance has them, set or not. *)
Definition ToolResult_fields : list string :=
  ["output"; "error"; "base64_image"].
Definition hasattr (m : message) (name : string) : bool :=
  match m with
  | MToolResult _ => bool_decide (name ∈ ToolResult_fields)
  | MTextBlock _ => bool_decide (name ∈ ["type"; "text"])
  | MToolUseBlock _ _ => bool_decide (name ∈ ["type"; "id"; "name"; "input"])
  | MStr _ => false
  end.

(** Truth value of an optional text field: [None] and [""] are false. *)
Definition field_truthy (o : option string) : bool :=
  match o with
  | Some s => Text.truthy s
  | None => false
  end.

Section render.
(** [bool(r)] for a tool result, decided by the external class. *)
Variable ToolResult_bool : ToolResult → bool.
(** [base64.b64decode], which raises [binascii.Error] on a payload that
    is not base64. *)
Variable b64decode : string → result (list Byte.byte).

Definition is_tool_result (m : message) : bool :=
  match m with
  | MToolResult _ => true
  | _ => false
  end.

Definition message_bool (m : message) : bool :=
  match m with
  | MStr s => Text.truthy s
  | MToolResult r => ToolResult_bool r
  | MTextBlock _ | MToolUseBlock _ _ => true
  end.

(** [state[key]] on a state that is only read. *)
Definition read (st : state) (key : string) : result value :=
  match st !! key with
  | Some v => Ok v
  | None => Raise (KeyError key)
  end.

(** The condition of the first [if], with the short-circuit order of
    [or] and [and]: the state is read only for a truthy tool result. *)
Definition suppressed (m : message) (st : state) : result bool :=
  if negb (message_bool m) then Ok true
  else if negb (is_tool_result m) then Ok false
  else
    hide ← read st "hide_images";
    Ok (truthy hide && negb (hasattr m "error") && negb (hasattr m "output")).

Definition _render_message (sender : Sender) (m : message) (st : state)
  : result (option displayable) :=
  drop ← suppressed m st;
  if (drop : bool) then Ok None
  else
    match m with
    | MToolResult r =>
        if field_truthy (output r) then Ok (DText <$> output r)
        else if field_truthy (error r) then
          Ok (Some (DText ("Error: " +:+ default "" (error r))))
        else if field_truthy (base64_image r) then
          hide ← read st "hide_images";
          if negb (truthy hide) then
            bytes ← b64decode (default "" (base64_image r));
            Ok (Some (DBytes bytes))
          else Ok None
        else Ok None
    | MTextBlock text => Ok (Some (DText text))
    | MToolUseBlock name input =>
        Ok (Some (DText ("Tool Use: " +:+ name +:+ newline
                           +:+ "Input: " +:+ input)))
    | MStr s => Ok (Some (DText s))
    end.
End render.

(** *** A reference decoder

    Base64 over the standard alphabet for well-formed payloads (a multiple
    of four characters, padded with [=]), used to run the renderer on
    concrete images. *)
Definition sextet (c : ascii) : option N :=
  let n := N_of_ascii c in
  if (65 <=? n)%N && (n <=? 90)%N then Some (n - 65)%N
  else if (97 <=? n)%N && (n <=? 122)%N then Some (n - 71)%N
  else if (48 <=? n)%N && (n <=? 57)%N then Some (n + 4)%N
  else if (n =? 43)%N then Some 62%N
  else if (n =? 47)%N then Some 63%N
  else None.

Definition byte_of_N (n : N) : Byte.byte :=
  byte_of_ascii (ascii_of_N (n mod 256)).

Definition pad : ascii := "="%char.

Fixpoint decode_quads (l : list ascii) : result (list Byte.byte) :=
  match l with
  | [] => Ok []
  | a :: b :: c :: d :: rest =>
      match sextet a, sextet b with
      | Some x, Some y =>
          let b1 := byte_of_N (x * 4 + y / 16) in
          match sextet c, sextet d with
          | Some z, Some w =>
              tail ← decode_quads rest;
              Ok (b1 :: byte_of_N (y * 16 + z / 4)
                     :: byte_of_N (z * 64 + w) :: tail)
          | Some z, None =>
              if bool_decide (d = pad ∧ rest = [])
              then Ok [b1; byte_of_N (y * 16 + z / 4)]
              else Raise (BinasciiError "Invalid base64-encoded string")
          | None, _ =>
              if bool_decide (c = pad ∧ d = pad ∧ rest = [])
              then Ok [b1]
              else Raise (BinasciiError "Invalid base64-encoded string")
          end
      | _, _ => Raise (BinasciiError "Invalid base64-encoded string")
      end
  | _ => Raise (BinasciiError "Incorrect padding")
  end.

Definition b64decode_reference (s : string) : result (list Byte.byte) :=
  decode_quads (Text.chars s).

(** [ToolResult.__bool__] as a data class that is true when any field is:
    one admissible reading of the external class. *)
Definition any_field (r : ToolResult) : bool :=
  field_truthy (output r) || field_truthy (error r)
  || field_truthy (base64_image r).

End Render.

(** ** Generators

    A Python generator that has been driven to its end: the values it
    yielded, in order, and the exception that ended it, if any. *)
Record gen (A : Type) : Type := Gen {
  yielded : list A;
  raised : option exn
}.
Arguments Gen {A} yielded raised.
Arguments yielded {A} g.
Arguments raised {A} g.

(** [for x in g: yield f(x)] *)
Definition gen_map {A B} (f : A → B) (g : gen A) : gen B :=
  Gen (map f (yielded g)) (raised g).

(** [try: <g>  except Exception as e: <handler e>] inside a generator:
    what [g] yielded before raising stays yielded. *)
Definition gen_try {A} (g : gen A) (handler : exn → gen A) : gen A :=
  match raised g with
  | None => g
  | Some e => Gen (yielded g ++ yielded (handler e)) (raised (handler e))
  end.

(** A generator whose first step raises. *)
Definition gen_raise {A} (e : exn) : gen A := Gen [] (Some e).

(** ** Streaming relay: [accumulate_messages] and [/api/process-input] *)
Module Relay.
Import State.

(** The keyword arguments of [sampling_loop_sync], without the three
    callbacks (closures over the state that the relay never calls itself). *)
Record AgentCall : Type := mkAgentCall {
  system_prompt_suffix : value;
  model : value;
  provider : value;
  messages : value;
  api_key : value;
  only_n_most_recent_images : value;
  selected_screen : option Z
}.

(** [state["messages"].append({"role": Sender.USER,
                               "content": [TextBlock(type="text", text=t)]})] *)
Definition user_message (t : string) : Message :=
  mkMessage USER [TextBlock t].

Definition append_user_message (t : string) : M state unit :=
  v ← subscript "messages";
  match v with
  | VList l => assign "messages" (VList (l ++ [user_message t]))
  | _ => raise (AttributeError "object has no attribute 'append'")
  end.

(** Evaluation of the keyword arguments, left to right. *)
Definition call_of_state (screen : option Z) (st : state) : result AgentCall :=
  suffix ← Render.read st "custom_system_prompt";
  mdl ← Render.read st "model";
  prov ← Render.read st "provider";
  msgs ← Render.read st "messages";
  _ ← Render.read st "tools";
  _ ← Render.read st "responses";
  key ← Render.read st "api_key";
  n ← Render.read st "only_n_most_recent_images";
  Ok (mkAgentCall suffix mdl prov msgs key n screen).

Definition sse (payload : string) : string :=
  "data: " +:+ payload +:+ newline +:+ newline.

Section relay.
(** The values that the external agent loop yields, compared with [==],
    printed with [str()]. *)
Context {Msg : Type} `{EqDecision Msg}.
Variable fmt : Msg → string.

(** One run of the external [sampling_loop_sync]: the generator it
    returns and the content of the [messages] list, which it shares with
    the caller, when the generator stops. *)
Record AgentRun : Type := mkAgentRun {
  produced : gen Msg;
  history_after : list Message
}.

Variable sampling_loop_sync : AgentCall → AgentRun.

(** The [for] loop of [accumulate_messages]. *)
Fixpoint accumulate (accumulated_messages messages : list Msg) : list Msg :=
  match messages with
  | [] => []
  | message :: rest =>
      if decide (message ∈ accumulated_messages)
      then accumulate accumulated_messages rest
      else message :: accumulate (accumulated_messages ++ [message]) rest
  end.

Definition accumulate_messages (call : AgentCall) : gen Msg :=
  let messages := produced (sampling_loop_sync call) in
  Gen (accumulate [] (yielded messages)) (raised messages).

(** The generator of [yield_message]. *)
Definition yield_message (screen : option Z) (st : state) : gen Msg :=
  if negb (truthy (default VNone (st !! "api_key")))
  then gen_raise (ExternalError
         "API key is missing. Please set it in the environment or storage.")
  else
    match call_of_state screen st with
    | Ok call => accumulate_messages call
    | Raise e => gen_raise e
    end.

(** The generator [message_generator] of [process_input_api]. *)
Definition message_generator (screen : option Z) (st : state) : gen string :=
  gen_try
    match call_of_state screen st with
    | Ok call => gen_map (λ message, sse (fmt message)) (accumulate_messages call)
    | Raise e => gen_raise e
    end
    (λ e, Gen [sse ("Error: " +:+ str_exn e)] None).

(** *** The HTTP handler *)

Unset Elimination Schemes.
Inductive json : Type :=
  | JNull
  | JBool (b : bool)
  | JNumber (z : Z)
  | JString (s : string)
  | JArray (items : list json)
  | JObject (fields : list (string * json)).
Set Elimination Schemes.

(** A request as the handlers see it: the headers under their lower-case
    names, the outcome of [await request.json()], and the form fields. *)
Record Request : Type := mkRequest {
  headers : gmap string string;
  json_body : result json;
  form : gmap string string
}.

Inductive response : Type :=
  | StreamingResponse (chunks : gen string)
  | ErrorResponse (status_code : Z) (detail : string).

(** What a handler has done with the request and the session, in order. *)
Inductive action : Type :=
  | ParsedBody
  | BuiltState
  | DroveAgentLoop.

Definition note (a : action) : M (list action) unit :=
  modify (λ done, done ++ [a]).

Definition lift {S A} (r : result A) : M S A :=
  match r with
  | Ok a => mret a
  | Raise e => raise e
  end.

(** [data.get(key)]: only a JSON object has the method. *)
Definition json_get (data : json) (key : string) : result (option json) :=
  match data with
  | JObject fields => Ok (snd <$> List.find (λ kv, bool_decide (kv.1 = key))
                                    (rev fields))
  | _ => Raise (AttributeError "object has no attribute 'get'")
  end.

(** [TextBlock(type="text", text=v)]: the field must be a string. *)
Definition text_field (v : option json) : result string :=
  match v with
  | Some (JString s) => Ok s
  | _ => Raise (TypeError "1 validation error for TextBlock")
  end.

Section handler.
Variable L : LoopModule.
Variable env : Env.
(** The global [SELECTED_SCREEN_INDEX] when the request arrives. *)
Variable SELECTED_SCREEN_INDEX : option Z.

Definition process_input_api (request : Request) : M (list action) response :=
  note ParsedBody;;
  data ← lift (json_body request);
  user_input ← lift (json_get data "user_input");
  let api_key := headers request !! "anthropic-api-key" in
  if negb (Render.field_truthy api_key)
  then raise (HTTPException 401 "API Key missing")
  else
    note BuiltState;;
    match (setup_state L env;;
           assign "api_key" (VStr (default "" api_key));;
           text ← lift (text_field user_input);
           append_user_message text) ∅ with
    | (_, Raise e) => raise e
    | (st, Ok _) =>
        note DroveAgentLoop;;
        mret (StreamingResponse (message_generator SELECTED_SCREEN_INDEX st))
    end.

(** What the framework sends for the outcome of a handler: the response
    itself, the status of an [HTTPException], or 500 for any other
    exception. *)
Definition respond (r : result response) : response :=
  match r with
  | Ok resp => resp
  | Raise (HTTPException status detail) => ErrorResponse status detail
  | Raise _ => ErrorResponse 500 "Internal Server Error"
  end.

Definition serve_process_input (request : Request) : list action * response :=
  let '(done, r) := process_input_api request [] in (done, respond r).

End handler.
End relay.
End Relay.

(** ** Secondary orchestrator: [/api/process_input_api_using_model] *)
Module Orchestrator.
Import State Relay.

(** The termination phrase, and what the specification means by its
    occurrence: some stretch of the reply spells the phrase when the case
    of the letters is ignored. *)
Definition SENTINEL : string := "FINAL RESPONSE".



(** The credential that [process_input_loop] writes into the state it
    builds (the literal of the assignment to [state["api_key"]]). *)
Definition LOOP_API_KEY : string :=
  "**********************************************************************".

(** The events of the stream, one per [yield] of [response_generator]. *)
Inductive event (Msg : Type) : Type :=
  | Planned (current_prompt : string)
  | AgentResponse (message : Msg)
  | AgentFailed (e : exn)
  | FollowUp (followup_content : string)
  | Closed.
Arguments Planned {Msg} current_prompt.
Arguments AgentResponse {Msg} message.
Arguments AgentFailed {Msg} e.
Arguments FollowUp {Msg} followup_content.
Arguments Closed {Msg}.

(** How the generator stopped: after the closing chunk ([Done]), after
    the agent-loop error chunk ([Failed]), by an exception that reached the
    outer handler ([Crashed], with the exception that was caught), or not
    yet, when the external behaviour supplied to the model is used up
    ([Running]). *)
Inductive outcome : Type :=
  | Done
  | Failed
  | Crashed (e : exn)
  | Running.

(** An entry of [conversation_log]. *)
Inductive logged (Msg : Type) : Type :=
  | LogText (role content : string)
  | LogMessage (message : Msg).
Arguments LogText {Msg} role content.
Arguments LogMessage {Msg} message.

Section orchestrator.
Context {Msg : Type} `{EqDecision Msg}.
Variable fmt : Msg → string.
(** Whether [json.dumps] accepts a value yielded by the agent loop. *)
Variable json_serializable : Msg → bool.
Variable L : LoopModule.
Variable env : Env.
Variable SELECTED_SCREEN_INDEX : option Z.

(** The text of [choices[0].message.content] for a request to the
    planning model with the given user content; the call may raise and the
    content may be [None]. *)
Definition planner : Type := string → result (option string).

(** The external behaviour during one pass of the [while True] loop. *)
Record turn : Type := mkTurn {
  agent : AgentCall → AgentRun (Msg := Msg);
  followup : planner
}.

Record run : Type := mkRun {
  events : list (event Msg);
  calls : list AgentCall;
  ending : outcome
}.

Definition chunk (e : event Msg) : string :=
  match e with
  | Planned p => sse ("OpenAI Processed Input:" +:+ newline +:+ p)
  | AgentResponse m => sse ("Anthropic Response: " +:+ fmt m)
  | AgentFailed e => sse ("Error from Anthropic: " +:+ str_exn e)
  | FollowUp c => sse ("OpenAI Follow-Up:" +:+ newline +:+ c)
  | Closed => sse "Conversation closed by OpenAI."
  end.

(** The outer [except] clause evaluates [datetime.datetime.now()] with
    [datetime] bound to the class by [from datetime import datetime], so
    the clause itself raises before it yields its chunk. *)
Definition outer_handler_error : exn :=
  AttributeError "type object 'datetime.datetime' has no attribute 'datetime'".

(** [content.strip()] on the content of a reply. *)
Definition stripped (content : option string) : result string :=
  match content with
  | Some s => Ok (Text.strip s)
  | None => Raise (AttributeError "'NoneType' object has no attribute 'strip'")
  end.

(** [json.dumps({"conversation": conversation_log}, indent=2)] succeeds. *)
Definition dumps_ok (conversation_log : list (logged Msg)) : bool :=
  forallb (λ entry, match entry with
                    | LogText _ _ => true
                    | LogMessage m => json_serializable m
                    end) conversation_log.

(** The local variables that live across passes of the loop. *)
Record locals : Type := mkLocals {
  state : gmap string value;
  current_prompt : string;
  message : option Msg;
  conversation_log : list (logged Msg)
}.

Definition before (evs : list (event Msg)) (cs : list AgentCall) (r : run) : run :=
  mkRun (evs ++ events r) (cs ++ calls r) (ending r).

(** The text that the planning model is asked about in DECIDE. *)
Definition question (m : Msg) : string :=
  "Anthropic response:" +:+ newline +:+ fmt m.

(** The [while True] loop, one [turn] of external behaviour per pass. *)
Fixpoint while_true (script : list turn) (v : locals) : run :=
  match script with
  | [] => mkRun [] [] Running
  | t :: script' =>
      match append_user_message (current_prompt v) (state v) with
      | (_, Raise e) => mkRun [] [] (Crashed e)
      | (st, Ok _) =>
          match call_of_state SELECTED_SCREEN_INDEX st with
          | Raise e => mkRun [AgentFailed e] [] Failed
          | Ok call =>
              let messages := accumulate_messages (agent t) call in
              let relayed := AgentResponse <$> yielded messages in
              let log := conversation_log v ++ (LogMessage <$> yielded messages) in
              match raised messages with
              | Some e => mkRun (relayed ++ [AgentFailed e]) [call] Failed
              | None =>
                  match from_option Some (message v) (last (yielded messages)) with
                  | None =>
                      mkRun relayed [call] (Crashed (UnboundLocalError "message"))
                  | Some m =>
                      match followup t (question m)
                              ≫= stripped with
                      | Raise e => mkRun relayed [call] (Crashed e)
                      | Ok followup_content =>
                          let log' := log ++ [LogText "OpenAI" followup_content] in
                          let relayed' := relayed ++ [FollowUp followup_content] in
                          if negb (dumps_ok log') then
                            mkRun relayed' [call]
                              (Crashed (TypeError "Object is not JSON serializable"))
                          else if Text.contains SENTINEL (Text.upper followup_content)
                          then mkRun (relayed' ++ [Closed]) [call] Done
                          else
                            before relayed' [call]
                              (while_true script'
                                 (mkLocals
                                    (<["messages" :=
                                         VList (history_after (agent t call))]> st)
                                    followup_content (Some m) log'))
                      end
                  end
              end
          end
      end
  end.

(** How one pass of the loop ends, or continues: a case for each exit
    of the body of [while True]. *)
Inductive pass (t : turn) (script : list turn) (v : locals) : run → Prop :=
  | pass_no_history e :
      (append_user_message (current_prompt v) (state v)).2 = Raise e →
      pass t script v (mkRun [] [] (Crashed e))
  | pass_no_call st e :
      append_user_message (current_prompt v) (state v) = (st, Ok tt) →
      call_of_state SELECTED_SCREEN_INDEX st = Raise e →
      pass t script v (mkRun [AgentFailed e] [] Failed)
  | pass_agent_raised st call e :
      append_user_message (current_prompt v) (state v) = (st, Ok tt) →
      call_of_state SELECTED_SCREEN_INDEX st = Ok call →
      raised (produced (agent t call)) = Some e →
      pass t script v
        (mkRun ((AgentResponse <$> yielded (accumulate_messages (agent t) call))
                  ++ [AgentFailed e]) [call] Failed)
  | pass_decide_raised st call e :
      append_user_message (current_prompt v) (state v) = (st, Ok tt) →
      call_of_state SELECTED_SCREEN_INDEX st = Ok call →
      raised (produced (agent t call)) = None →
      pass t script v
        (mkRun (AgentResponse <$> yielded (accumulate_messages (agent t) call))
           [call] (Crashed e))
  | pass_log_raised st call m reply :
      append_user_message (current_prompt v) (state v) = (st, Ok tt) →
      call_of_state SELECTED_SCREEN_INDEX st = Ok call →
      raised (produced (agent t call)) = None →
      followup t (question m) = Ok (Some reply) →
      dumps_ok ((conversation_log v
                   ++ (LogMessage <$> yielded (accumulate_messages (agent t) call)))
                  ++ [LogText "OpenAI" (Text.strip reply)]) = false →
      pass t script v
        (mkRun ((AgentResponse <$> yielded (accumulate_messages (agent t) call))
                  ++ [FollowUp (Text.strip reply)])
           [call] (Crashed (TypeError "Object is not JSON serializable")))
  | pass_closed st call m reply :
      append_user_message (current_prompt v) (state v) = (st, Ok tt) →
      call_of_state SELECTED_SCREEN_INDEX st = Ok call →
      raised (produced (agent t call)) = None →
      followup t (question m) = Ok (Some reply) →
      Text.contains SENTINEL (Text.upper (Text.strip reply)) = true →
      pass t script v
        (mkRun (((AgentResponse <$> yielded (accumulate_messages (agent t) call))
                   ++ [FollowUp (Text.strip reply)]) ++ [Closed])
           [call] Done)
  | pass_again st call m reply :
      append_user_message (current_prompt v) (state v) = (st, Ok tt) →
      call_of_state SELECTED_SCREEN_INDEX st = Ok call →
      raised (produced (agent t call)) = None →
      followup t (question m) = Ok (Some reply) →
      dumps_ok ((conversation_log v
                   ++ (LogMessage <$> yielded (accumulate_messages (agent t) call)))
                  ++ [LogText "OpenAI" (Text.strip reply)]) = true →
      Text.contains SENTINEL (Text.upper (Text.strip reply)) = false →
      pass t script v
        (before ((AgentResponse <$> yielded (accumulate_messages (agent t) call))
                   ++ [FollowUp (Text.strip reply)])
           [call]
           (while_true script
              (mkLocals
                 (<["messages" := VList (history_after (agent t call))]> st)
                 (Text.strip reply) (Some m)
                 ((conversation_log v
                     ++ (LogMessage <$> yielded (accumulate_messages (agent t) call)))
                    ++ [LogText "OpenAI" (Text.strip reply)])))).

(** The body of [response_generator] up to the loop. *)
Definition response_generator (plan : planner) (script : list turn)
    (user_input : string) : run :=
  match plan user_input ≫= stripped with
  | Raise e => mkRun [] [] (Crashed e)
  | Ok current_prompt =>
      match (setup_state L env;; assign "api_key" (VStr LOOP_API_KEY)) ∅ with
      | (_, Raise e) => mkRun [Planned current_prompt] [] (Crashed e)
      | (st, Ok _) =>
          before [Planned current_prompt] []
            (while_true script
               (mkLocals st current_prompt None
                  [LogText "OpenAI" current_prompt]))
      end
  end.

(** The chunks that the client receives, and the exception that the
    generator ends with when the outer handler has been entered. *)
Definition stream (r : run) : gen string :=
  Gen (chunk <$> events r)
      match ending r with
      | Crashed _ => Some outer_handler_error
      | _ => None
      end.


End orchestrator.
End Orchestrator.

(** ** Sample hosts and inputs

    Concrete values on which the definitions above are run. *)
Module Samples.
Import Storage State.

(** A host whose configuration directory is read-only and already holds
    a readable, write-protected credential file. *)
Definition protected_host : host :=
  Host true (Some (ConfigDir false {[ "api_key" := File "sk-old" true false ]})).


(** The provider-to-model table with one entry for each provider that
    [validate_auth] distinguishes. *)
Definition sample_loop : LoopModule := {|
  PROVIDER_TO_DEFAULT_MODEL_NAME :=
    {[ "anthropic" := "claude-3-5-sonnet-20241022";
       "bedrock" := "anthropic.claude-3-5-sonnet-20241022-v2:0";
       "vertex" := "claude-3-5-sonnet-v2@20241022" ]};
  APIProvider_ANTHROPIC := "anthropic"
|}.

(** A Linux host without [API_PROVIDER] in its environment and without
    a configuration directory. *)
Definition sample_env : Env := {|
  getenv := λ _, None;
  platform_system := "Linux";
  disk := Host true None
|}.

(** The history that an agent loop leaves when it does not touch the
    list it was handed. *)
Definition untouched (call : Relay.AgentCall) : list Message :=
  match Relay.messages call with
  | VList l => l
  | _ => []
  end.

(** An agent loop that yields one text twice, around another one. *)
Definition repeating_agent (call : Relay.AgentCall) : Relay.AgentRun (Msg := string) :=
  Relay.mkAgentRun (Gen ["click"; "screenshot"; "click"] None) (untouched call).

(** An agent loop that yields one text and then fails. *)
Definition failing_agent (call : Relay.AgentCall) : Relay.AgentRun (Msg := string) :=
  Relay.mkAgentRun (Gen ["click"] (Some (ExternalError "connection reset")))
    (untouched call).

(** An agent loop that yields one text and stops. *)
Definition one_shot_agent (call : Relay.AgentCall) : Relay.AgentRun (Msg := string) :=
  Relay.mkAgentRun (Gen ["clicked"] None) (untouched call).

(** A request without headers whose body is not JSON. *)
Definition malformed_request : Relay.Request :=
  Relay.mkRequest ∅ (Raise (JSONDecodeError "Expecting value")) ∅.

(** A request without headers whose body is a JSON object. *)
Definition unauthenticated_request : Relay.Request :=
  Relay.mkRequest ∅
    (Ok (Relay.JObject [("user_input", Relay.JString "open the browser")])) ∅.

(** A request with a credential header and a JSON object as body. *)
Definition authenticated_request : Relay.Request :=
  Relay.mkRequest {[ "anthropic-api-key" := "sk-live" ]}
    (Ok (Relay.JObject [("user_input", Relay.JString "open the browser")])) ∅.

(** A planning model that always answers with the same text. *)
Definition answering (reply : string) : Orchestrator.planner :=
  λ _, Ok (Some reply).

(** A pass in which the agent loop yields one text and the planning
    model asks for a further step. *)
Definition continuing_turn : Orchestrator.turn (Msg := string) :=
  Orchestrator.mkTurn one_shot_agent (answering "now click save").

(** A pass in which the agent loop yields one text and the planning
    model closes the conversation, in lower case and with blanks around. *)
Definition closing_turn : Orchestrator.turn (Msg := string) :=
  Orchestrator.mkTurn one_shot_agent (answering "  final response.  ").

(** A pass in which the agent loop fails after one text. *)
Definition failing_turn : Orchestrator.turn (Msg := string) :=
  Orchestrator.mkTurn failing_agent (answering "unused").



End Samples.

(** ** Credential validation: [validate_auth] *)
Module Auth.

(** The members of [APIProvider] that [validate_auth] compares the
    provider with. *)
Record APIProvider : Type := {
  ANTHROPIC : string;
  BEDROCK : string;
  VERTEX : string
}.

(** How [google.auth.default(scopes=...)] ends. *)
Inductive google_outcome : Type :=
  | Resolved
  | DefaultCredentialsError
  | OtherFailure (e : exn).

(** What the cloud checks consult: the import of [boto3] followed by the
    truth value of [boto3.Session().get_credentials()], the import of
    [google.auth], the variable [CLOUD_ML_REGION], and the resolution of
    the default Google credentials. *)
Record CloudEnv : Type := {
  boto3_credentials : result bool;
  google_import : result unit;
  CLOUD_ML_REGION : option string;
  google_auth_default : google_outcome
}.

Section validate.
Variable P : APIProvider.
Variable cloud : CloudEnv.

(** The third [if] of [validate_auth], entered for the Vertex provider. *)
Definition check_vertex : result (option string) :=
  _ ← google_import cloud;
  if negb (Render.field_truthy (CLOUD_ML_REGION cloud)) then
    Ok (Some "Set the CLOUD_ML_REGION environment variable to use the Vertex API.")
  else
    match google_auth_default cloud with
    | Resolved => Ok None
    | DefaultCredentialsError =>
        Ok (Some "Your google cloud credentials are not set up correctly.")
    | OtherFailure e => Raise e
    end.

(** The second [if], entered for the Bedrock provider. *)
Definition check_bedrock : result (option string) :=
  credentials ← boto3_credentials cloud;
  if negb (credentials : bool)
  then Ok (Some "You must have AWS credentials set up to use the Bedrock API.")
  else Ok None.

(** [validate_auth(provider, api_key)]: [Some] is a returned message,
    [None] is falling off the end of the function. *)
Definition validate_auth (provider : string) (api_key : option string)
  : result (option string) :=
  if bool_decide (provider = ANTHROPIC P) && negb (Render.field_truthy api_key)
  then Ok (Some "Enter your Anthropic API key to continue.")
  else
    first ← (if bool_decide (provider = BEDROCK P) then check_bedrock
             else Ok None);
    match first with
    | Some message => Ok (Some message)
    | None =>
        if bool_decide (provider = VERTEX P) then check_vertex else Ok None
    end.

End validate.

(** The members of an enumeration have pairwise different values. *)
Definition distinct (P : APIProvider) : Prop :=
  ANTHROPIC P ≠ BEDROCK P ∧ ANTHROPIC P ≠ VERTEX P ∧ BEDROCK P ≠ VERTEX P.

End Auth.

(** ** The callbacks handed to the agent loop *)
Module Callbacks.
Import State.

(** [_api_response_callback(response, response_state)], at the clock
    reading [now] (the text of [datetime.now().isoformat()]). *)
Definition _api_response_callback (now : string) (response : string)
  : M (gmap string obj) unit :=
  modify (insert now (ObjResponse response)).

(** [_tool_output_callback(tool_output, tool_id, tool_state)] *)
Definition _tool_output_callback (tool_output : ToolResult) (tool_id : string)
  : M (gmap string obj) unit :=
  modify (insert tool_id (ObjToolResult tool_output)).

(** A series of invocations of one callback, in order. *)
Definition replay {S A} (callback : A → M S unit) (calls : list A) : M S unit :=
  foldr (λ a rest, callback a;; rest) (mret tt) calls.

End Callbacks.

(** ** Screen selection: [update_selected_screen] *)
Module Screens.

(** The two process-wide variables of the screen selection. *)
Record globals : Type := mkGlobals {
  SELECTED_SCREEN_INDEX : option Z;
  SCREEN_NAMES : option (list string)
}.

(** [names.index(name)]: the position of the first equal element. *)
Fixpoint index (name : string) (names : list string) : option nat :=
  match names with
  | [] => None
  | x :: rest =>
      if decide (x = name) then Some 0 else S <$> index name rest
  end.

(** [update_selected_screen(selected_screen_name)].  The [ValueError] of
    [list.index] is carried by [ExternalError] with its message. *)
Definition update_selected_screen (selected_screen_name : string)
  : M globals unit :=
  g ← get;
  match SCREEN_NAMES g with
  | None => raise (AttributeError "'NoneType' object has no attribute 'index'")
  | Some names =>
      match index selected_screen_name names with
      | None =>
          raise (ExternalError ("'" +:+ selected_screen_name +:+ "' is not in list"))
      | Some i =>
          modify (λ g, mkGlobals (Some (Z.of_nat i)) (SCREEN_NAMES g))
      end
  end.

End Screens.

(** ** The chat handler of the user interface: [process_input] *)
Module Chat.
Import State Relay.

Section chat.
Context {Msg : Type} `{EqDecision Msg}.
Variable sampling_loop_sync : AgentCall → AgentRun (Msg := Msg).
Variable L : LoopModule.
Variable env : Env.
Variable SELECTED_SCREEN_INDEX : option Z.

(** The generator [process_input(user_input, state)], driven to its end,
    together with the mapping as the generator leaves it (the caller's, or
    a new one when [state] is [None]).  Its one item pairs the generator of
    [yield_message], which reads the mapping when it is driven, with the
    mapping. *)
Definition process_input (user_input : string) (state : option (gmap string value))
  : gmap string value * gen (gen Msg * gmap string value) :=
  match (setup_state L env;; append_user_message user_input) (default ∅ state) with
  | (st, Ok _) =>
      (st, Gen [(yield_message sampling_loop_sync SELECTED_SCREEN_INDEX st, st)] None)
  | (st, Raise e) => (st, gen_raise e)
  end.

End chat.
End Chat.

(** ** Behaviours of the external services *)
Module Behaviour.
Import State Relay Orchestrator.

(** The keys that the relay reads when it calls the agent loop, present
    in the state, with a list as the history. *)
Definition ready (st : gmap string value) : Prop :=
  (∃ h, st !! "messages" = Some (VList h)) ∧
  is_Some (st !! "custom_system_prompt") ∧ is_Some (st !! "model") ∧
  is_Some (st !! "provider") ∧ is_Some (st !! "tools") ∧
  is_Some (st !! "responses") ∧ is_Some (st !! "api_key") ∧
  is_Some (st !! "only_n_most_recent_images").

(** A pass that cannot end the loop: the agent loop yields something and
    does not raise, and the planning model answers, never with the phrase. *)
Definition keeps_going {Msg : Type} (t : turn (Msg := Msg)) : Prop :=
  (∀ call, raised (produced (agent t call)) = None ∧
           yielded (produced (agent t call)) ≠ []) ∧
  (∀ q, ∃ reply, followup t q = Ok (Some reply) ∧
                 Text.contains SENTINEL (Text.upper (Text.strip reply)) = false).

End Behaviour.

(** Further sample values. *)
Module MoreSamples.
Import State.

Definition providers : Auth.APIProvider :=
  {| Auth.ANTHROPIC := "anthropic"; Auth.BEDROCK := "bedrock";
     Auth.VERTEX := "vertex" |}.

(** A host on which the Vertex region is set and the Google library
    fails with something other than missing credentials. *)
Definition broken_cloud : Auth.CloudEnv :=
  {| Auth.boto3_credentials := Ok false;
     Auth.google_import := Ok tt;
     Auth.CLOUD_ML_REGION := Some "us-east5";
     Auth.google_auth_default := Auth.OtherFailure (ExternalError "transport error") |}.


(** An agent loop that yields nothing and stops. *)
Definition silent_agent (call : Relay.AgentCall) : Relay.AgentRun (Msg := string) :=
  Relay.mkAgentRun (Gen [] None) (Samples.untouched call).

Definition silent_turn : Orchestrator.turn (Msg := string) :=
  Orchestrator.mkTurn silent_agent (Samples.answering "unused").

(** A request with a credential whose body has no [user_input]. *)
Definition request_without_input : Relay.Request :=
  Relay.mkRequest {[ "anthropic-api-key" := "sk-live" ]}
    (Ok (Relay.JObject [("prompt", Relay.JString "open the browser")])) ∅.

End MoreSamples.

(** ** Proof automation *)

(** Membership of a literal in the list of required keys. *)
Ltac in_list :=
  unfold State.required_keys;
  repeat first [apply list_elem_of_here | apply list_elem_of_further].

(** Unfolding of the monadic operations on a concrete computation. *)
Ltac run_monad :=
  repeat (progress (unfold mbind, M_bind, State.subscript, get, raise,
                      State.assign, modify, mret, M_ret; cbn)).

(** One guarded assignment of a sequence, run with the lemma [spec]
    that describes it. *)
Ltac step_assign spec s s' F P :=
  match goal with
  | |- context [(State.guard ?k (State.assign ?k ?v) ≫= (λ _, ?rest)) s] =>
      destruct (spec _ k v rest s) as (s' & -> & F & P)
  end.

(** * Properties *)

(** ** The monad *)

Lemma bind_Ok {S A B} (m : M S A) (f : A → M S B) s s' a :
  m s = (s', Ok a) → (m ≫= f) s = f a s'.
Proof. intros E. unfold mbind, M_bind. by rewrite E. Qed.

Lemma bind_Raise {S A B} (m : M S A) (f : A → M S B) s s' e :
  m s = (s', Raise e) → (m ≫= f) s = (s', Raise e).
Proof. intros E. unfold mbind, M_bind. by rewrite E. Qed.

Lemma bind_inv_Ok {S A B} (m : M S A) (f : A → M S B) s s2 b :
  (m ≫= f) s = (s2, Ok b) → ∃ s1 a, m s = (s1, Ok a) ∧ f a s1 = (s2, Ok b).
Proof.
  unfold mbind, M_bind. destruct (m s) as [s1 [a|e]] eqn:E; intros E2.
  - by exists s1, a.
  - discriminate.
Qed.


(** ** Credential store *)
Module StorageFacts.
Import Storage.

Section any_file_system.
Context {FS : Type} `{FileSystem FS}.


End any_file_system.

(** On the host, a load leaves the disk as it is and is decided by the
    file under the name. *)
Lemma load_from_storage_host (filename : string) (h : host) :
  load_from_storage filename h =
    (h, Ok match file_of h filename with
           | Some f =>
               if f_readable f && Text.truthy (Text.strip (f_text f))
               then Some (Text.strip (f_text f)) else None
           | None => None
           end).
Proof.
  unfold load_from_storage, try_except, load_body, file_of.
  unfold mbind at 1, M_bind. cbn [fs_exists fs_read_text host_fs].
  unfold host_exists, host_read_text.
  destruct h as [hw [d|]]; cbn; [|done].
  destruct (d_files d !! filename) as [f|] eqn:E; cbn; [|done].
  unfold mbind, M_bind. cbn. rewrite E.
  destruct (f_readable f); cbn; [|done].
  by destruct (Text.truthy _).
Qed.





End StorageFacts.

(** ** Session state *)
Module StateFacts.
Import State.

Lemma bind_unit_ret {S} (m : M S unit) s : (m;; mret tt) s = m s.
Proof.
  unfold mbind, M_bind. destruct (m s) as [s' [[]|e]]; reflexivity.
Qed.

Lemma bind_ext {S A B} (m : M S A) (f g : A → M S B) s :
  (∀ a s', f a s' = g a s') → (m ≫= f) s = (m ≫= g) s.
Proof.
  intros E. unfold mbind, M_bind. destruct (m s) as [s' [a|e]]; [apply E|done].
Qed.

Lemma guard_present (key : string) (body : M state unit) (st : state) v :
  st !! key = Some v → guard key body st = (st, Ok tt).
Proof. intros E. unfold guard, mbind, M_bind, get. by rewrite E. Qed.

Lemma guard_absent (key : string) (body : M state unit) (st : state) :
  st !! key = None → guard key body st = body st.
Proof. intros E. unfold guard, mbind, M_bind, get. by rewrite E. Qed.

Lemma run_steps_cons key body steps st :
  run_steps ((key, body) :: steps) st
  = (guard key body;; run_steps steps) st.
Proof. reflexivity. Qed.

Section steps.
(** The default that the key of a step receives, read off a state that
    extends the one the step has produced. *)
Variable dflt : state → string → option value.

(** The head of a step list, run on a state: either its key is there
    and nothing happens, or it is added, or the body raises. *)
Lemma step_cases k b st :
  body_ok dflt (k, b) →
  (∃ v, st !! k = Some v ∧ guard k b st = (st, Ok tt)) ∨
  (∃ v, st !! k = None ∧ guard k b st = (<[k:=v]> st, Ok tt) ∧
        ∀ st', <[k:=v]> st ⊆ st' → dflt st' k = Some v) ∨
  (∃ e, st !! k = None ∧ guard k b st = (st, Raise e)).
Proof.
  intros Hb. destruct (st !! k) as [v|] eqn:Ek.
  - left. exists v. split; [done|]. by eapply guard_present.
  - right. rewrite (guard_absent _ _ _ Ek). specialize (Hb st Ek). cbn in Hb.
    destruct (b st) as [s1 [[]|e]].
    + left. destruct Hb as (v & -> & Hd). by exists v.
    + right. subst s1. by exists e.
Qed.

Lemma run_steps_subseteq steps st st' r :
  Forall (body_ok dflt) steps → run_steps steps st = (st', r) → st ⊆ st'.
Proof.
  intros Hok. revert st. induction Hok as [|[k b] l Hb _ IH]; intros st.
  - by intros [= <- _].
  - rewrite run_steps_cons.
    destruct (step_cases k b st Hb)
      as [(v & Ek & Eg) | [(v & Ek & Eg & _) | (e & Ek & Eg)]].
    + rewrite (bind_Ok _ _ _ _ _ Eg). apply IH.
    + rewrite (bind_Ok _ _ _ _ _ Eg). intros E%IH.
      etrans; [|exact E]. by apply insert_subseteq.
    + rewrite (bind_Raise _ _ _ _ _ Eg). by intros [= <- _].
Qed.

Lemma run_steps_stable steps st st' r :
  Forall (body_ok dflt) steps →
  run_steps steps st = (st', r) → run_steps steps st' = (st', r).
Proof.
  intros Hok. revert st. induction Hok as [|[k b] l Hb Hl IH]; intros st.
  - by intros [= <- <-].
  - rewrite !run_steps_cons.
    destruct (step_cases k b st Hb)
      as [(v & Ek & Eg) | [(v & Ek & Eg & _) | (e & Ek & Eg)]].
    + rewrite (bind_Ok _ _ _ _ _ Eg). intros E.
      pose proof (run_steps_subseteq _ _ _ _ Hl E) as Hsub.
      rewrite (bind_Ok _ _ st' st' tt); [by eapply IH|].
      eapply guard_present, lookup_weaken; [exact Ek | exact Hsub].
    + rewrite (bind_Ok _ _ _ _ _ Eg). intros E.
      pose proof (run_steps_subseteq _ _ _ _ Hl E) as Hsub.
      rewrite (bind_Ok _ _ st' st' tt); [by eapply IH|].
      eapply guard_present, lookup_weaken; [|exact Hsub].
      apply lookup_insert_eq.
    + rewrite (bind_Raise _ _ _ _ _ Eg). intros [= <- <-].
      by rewrite (bind_Raise _ _ _ _ _ Eg).
Qed.

Lemma run_steps_defaults steps st st' :
  Forall (body_ok dflt) steps →
  run_steps steps st = (st', Ok tt) →
  ∀ k, k ∈ steps.*1 → st !! k = None →
       is_Some (st' !! k) ∧ st' !! k = dflt st' k.
Proof.
  intros Hok. revert st. induction Hok as [|[k b] l Hb Hl IH]; intros st.
  - intros _ k Hk. by apply elem_of_nil in Hk.
  - rewrite run_steps_cons.
    destruct (step_cases k b st Hb)
      as [(v & Ek & Eg) | [(v & Ek & Eg & Hd) | (e & Ek & Eg)]].
    + rewrite (bind_Ok _ _ _ _ _ Eg). intros E k' Hk' Enone.
      cbn in Hk'. apply elem_of_cons in Hk' as [-> | Hk']; [congruence|].
      by eapply IH.
    + rewrite (bind_Ok _ _ _ _ _ Eg). intros E k' Hk' Enone.
      pose proof (run_steps_subseteq _ _ _ _ Hl E) as Hsub.
      assert (st' !! k = Some v) as Ev.
      { eapply lookup_weaken; [|exact Hsub]. apply lookup_insert_eq. }
      destruct (decide (k' = k)) as [-> | Hne].
      * rewrite Ev, (Hd _ Hsub). eauto.
      * cbn in Hk'. apply elem_of_cons in Hk' as [-> | Hk']; [done|].
        eapply IH; [exact E | exact Hk' |]. by rewrite lookup_insert_ne.
    + rewrite (bind_Raise _ _ _ _ _ Eg). discriminate.
Qed.
End steps.

Section setup.
Variable L : LoopModule.
Variable env : Env.

Lemma setup_state_steps st :
  setup_state L env st = run_steps (setup_steps L env) st.
Proof.
  unfold setup_state, setup_steps, run_steps, foldr. cbn [fst snd].
  do 10 (apply bind_ext; intros [] ?).
  symmetry. apply bind_unit_ret.
Qed.

Lemma stored_system_prompt_returns : ∃ s, stored_system_prompt env = Ok s.
Proof.
  unfold stored_system_prompt.
  rewrite StorageFacts.load_from_storage_host. cbn.
  destruct (Storage.file_of _ _) as [f|]; [|by eexists].
  destruct (_ && _); by eexists.
Qed.

Lemma assign_ok key v :
  default_of L env ∅ key = Some v →
  (∀ st', default_of L env st' key = default_of L env ∅ key) →
  body_ok (default_of L env) (key, assign key v).
Proof.
  intros Hd Hconst st _. cbn. exists v. split; [done|].
  intros st' _. by rewrite Hconst.
Qed.

Lemma setup_steps_ok : Forall (body_ok (default_of L env)) (setup_steps L env).
Proof.
  unfold setup_steps.
  repeat apply Forall_cons_2; try apply Forall_nil_2;
    try (apply assign_ok; [reflexivity | intros; reflexivity]).
  - intros st _. cbn. run_monad.
    destruct (st !! "provider") as [p|] eqn:Ep; cbn; [|done].
    exists p. split; [done|]. intros st' Hsub.
    change (default_of L env st' "provider_radio") with (st' !! "provider").
    eapply lookup_weaken; [|exact Hsub].
    rewrite lookup_insert_ne by done. exact Ep.
  - intros st _. cbn. unfold _reset_model. run_monad.
    destruct (st !! "provider") as [p|] eqn:Ep; cbn; [|done].
    destruct (lookup_model L p) as [m|e] eqn:Em; cbn; [|done].
    exists (VStr m). split; [done|]. intros st' Hsub.
    change (default_of L env st' "model")
      with (match st' !! "provider" with
            | Some p => match lookup_model L p with
                        | Ok m => Some (VStr m) | Raise _ => None end
            | None => None end).
    assert (st' !! "provider" = Some p) as ->.
    { eapply lookup_weaken; [|exact Hsub]. by rewrite lookup_insert_ne. }
    by rewrite Em.
  - intros st _. cbn. unfold init_custom_system_prompt.
    destruct stored_system_prompt_returns as [s Es]. rewrite Es.
    unfold augment. run_monad. rewrite lookup_insert_eq. cbn.
    rewrite insert_insert_eq.
    eexists. split; [done|]. intros st' _.
    unfold default_of. cbn. by rewrite Es.
Qed.

Lemma guard_assign_then {A} key v (rest : M state A) st :
  ∃ st', (guard key (assign key v);; rest) st = rest st' ∧
         (∀ k, k ≠ key → st' !! k = st !! k) ∧
         st' !! key = Some (default v (st !! key)).
Proof.
  destruct (st !! key) as [w|] eqn:E.
  - exists st. rewrite (bind_Ok _ _ _ _ _ (guard_present _ _ _ _ E)).
    by rewrite E.
  - exists (<[key:=v]> st). split; [|split].
    + erewrite bind_Ok; [reflexivity|]. by rewrite guard_absent.
    + intros k Hk. by rewrite lookup_insert_ne.
    + by rewrite lookup_insert_eq.
Qed.

Lemma guard_custom_prompt_then {A} (rest : M state A) st :
  ∃ st', (guard "custom_system_prompt" (init_custom_system_prompt env);; rest) st
         = rest st'.
Proof.
  destruct (st !! "custom_system_prompt") as [w|] eqn:E.
  - exists st. by rewrite (bind_Ok _ _ _ _ _ (guard_present _ _ _ _ E)).
  - pose proof (Forall_lookup_1 _ _ 9 _ setup_steps_ok eq_refl st E) as Hb.
    cbn in Hb. destruct stored_system_prompt_returns as [s Es].
    destruct (init_custom_system_prompt env st) as [s1 [[]|e]] eqn:Eb.
    + exists s1. erewrite bind_Ok; [reflexivity|]. by rewrite guard_absent.
    + exfalso. revert Eb. unfold init_custom_system_prompt. rewrite Es.
      unfold augment. run_monad. by rewrite lookup_insert_eq.
Qed.

(** When the call returns: the state has a model already, or the
    provider it will read has an entry in the table. *)
Lemma setup_state_outcome st :
  (setup_state L env st).2 =
    match st !! "model" with
    | Some _ => Ok tt
    | None =>
        match lookup_model L (provider_after L env st) with
        | Ok _ => Ok tt
        | Raise e => Raise e
        end
    end.
Proof.
  unfold setup_state.
  step_assign @guard_assign_then st s1 F1 P1.
  step_assign @guard_assign_then s1 s2 F2 P2.
  step_assign @guard_assign_then s2 s3 F3 P3.
  assert (s3 !! "provider" = Some (provider_after L env st)) as Hp.
  { rewrite P3, F2, F1 by done. reflexivity. }
  assert (∃ s4, (guard "provider_radio"
                   (p ← subscript "provider"; assign "provider_radio" p) s3)
                = (s4, Ok tt)
                ∧ s4 !! "provider" = Some (provider_after L env st)
                ∧ s4 !! "model" = st !! "model") as (s4 & E4 & Hp4 & Hm4).
  { destruct (s3 !! "provider_radio") as [w|] eqn:E.
    - exists s3. rewrite (guard_present _ _ _ _ E).
      split_and!; [done | done |]. by rewrite F3, F2, F1.
    - exists (<["provider_radio" := provider_after L env st]> s3).
      rewrite (guard_absent _ _ _ E). run_monad. rewrite Hp. cbn.
      rewrite !lookup_insert_ne by done.
      split_and!; [done | done |]. by rewrite F3, F2, F1. }
  rewrite (bind_Ok _ _ _ _ _ E4).
  assert (∀ (rest : M state unit) s, (∀ s', (rest s').2 = Ok tt) →
            ((guard "model" (_reset_model L);; rest) s).2
            = match s !! "model" with
              | Some _ => Ok tt
              | None => match s !! "provider" with
                        | Some p => match lookup_model L p with
                                    | Ok _ => Ok tt | Raise e => Raise e end
                        | None => Raise (KeyError "provider")
                        end
              end) as Hmodel.
  { intros rest s Hrest. destruct (s !! "model") as [w|] eqn:E.
    - by rewrite (bind_Ok _ _ _ _ _ (guard_present _ _ _ _ E)).
    - unfold mbind at 1, M_bind at 1. rewrite (guard_absent _ _ _ E).
      unfold _reset_model. run_monad.
      destruct (s !! "provider") as [p|]; cbn; [|done].
      destruct (lookup_model L p); cbn; [apply Hrest | done]. }
  rewrite Hmodel, Hm4, Hp4; [done|].
  intros s5.
  step_assign @guard_assign_then s5 s6 F6 P6.
  step_assign @guard_assign_then s6 s7 F7 P7.
  step_assign @guard_assign_then s7 s8 F8 P8.
  step_assign @guard_assign_then s8 s9 F9 P9.
  match goal with
  | |- context [(guard _ _ ≫= (λ _, ?rest)) s9] =>
      destruct (guard_custom_prompt_then rest s9) as (s10 & ->)
  end.
  destruct (s10 !! "hide_images") as [w|] eqn:E.
  - by rewrite (guard_present _ _ _ _ E).
  - by rewrite (guard_absent _ _ _ E).
Qed.
End setup.

(** C1, as amended.  A second call of [setup_state] after the first
    leaves the mapping as the first call left it and ends as the first call
    ended; no key that the mapping held before a call has another value
    after it; the call returns exactly when the mapping holds a model
    already or the provider it reads (the one the mapping holds, else the
    default) is a key of the provider-to-model table, and otherwise raises
    from that lookup; and whenever the call returns, every required key
    that was absent before it is present afterwards with its default. *)
Theorem setup_state_idempotent_conservative (L : LoopModule) (env : Env)
    (st : state) :
  let st1 := (setup_state L env st).1 in
  let r1 := (setup_state L env st).2 in
  setup_state L env st1 = (st1, r1) ∧
  (∀ k v, st !! k = Some v → st1 !! k = Some v) ∧
  (r1 = Ok tt ↔
     is_Some (st !! "model") ∨
     ∃ m, lookup_model L (provider_after L env st) = Ok m) ∧
  (r1 = Ok tt →
     ∀ k, k ∈ required_keys → st !! k = None →
          is_Some (st1 !! k) ∧ st1 !! k = default_of L env st1 k).
Proof.
  intros st1 r1.
  assert (run_steps (setup_steps L env) st = (st1, r1)) as Hrun.
  { rewrite <- setup_state_steps. subst st1 r1. by destruct (setup_state L env st). }
  pose proof (setup_steps_ok L env) as Hok.
  split_and!.
  - rewrite setup_state_steps. by eapply run_steps_stable.
  - intros k v Hk. eapply lookup_weaken; [exact Hk|].
    by eapply run_steps_subseteq.
  - subst r1. rewrite setup_state_outcome.
    destruct (st !! "model") as [w|].
    + split; [eauto|done].
    + destruct (lookup_model L (provider_after L env st)) as [m|e].
      * split; [eauto|done].
      * split; [done|]. intros [[? [=]] | [? [=]]].
  - intros Hr k Hk Hnone. rewrite Hr in Hrun.
    by eapply (run_steps_defaults (default_of L env)).
Qed.

Lemma setup_state_idempotent_conservative_witness :
  (setup_state Samples.sample_loop Samples.sample_env ∅).2 = Ok tt ∧
  "model" ∈ required_keys ∧
  (setup_state Samples.sample_loop Samples.sample_env ∅).1 !! "model"
    = default_of Samples.sample_loop Samples.sample_env
        (setup_state Samples.sample_loop Samples.sample_env ∅).1 "model".
Proof.
  assert (Hr : (setup_state Samples.sample_loop Samples.sample_env ∅).2 = Ok tt)
    by (vm_compute; reflexivity).
  assert (Hk : "model" ∈ required_keys) by in_list.
  split; [exact Hr|]. split; [exact Hk|].
  destruct (setup_state_idempotent_conservative
              Samples.sample_loop Samples.sample_env ∅) as (_ & _ & _ & Hd).
  exact (proj2 (Hd Hr "model" Hk eq_refl)).
Defined.

(** C1, as stated, fails on a mapping whose provider has no entry in
    the provider-to-model table: the call raises from [_reset_model] and
    the required keys from [model] on are still absent. *)
Lemma setup_state_unknown_provider :
  let st : state := {[ "provider" := VStr "azure" ]} in
  let st1 := (setup_state Samples.sample_loop Samples.sample_env st).1 in
  (setup_state Samples.sample_loop Samples.sample_env st).2
    = Raise (KeyError "azure") ∧
  "model" ∈ required_keys ∧ st !! "model" = None ∧ st1 !! "model" = None ∧
  "hide_images" ∈ required_keys ∧ st !! "hide_images" = None ∧
  st1 !! "hide_images" = None ∧
  st1 !! "provider_radio" = Some (VStr "azure").
Proof.
  cbv zeta. split_and!; try in_list; vm_compute; reflexivity.
Qed.

End StateFacts.

(** ** Message renderer *)
Module RenderFacts.
Import State Render.

Lemma tool_result_has_error r : hasattr (MToolResult r) "error" = true.
Proof. reflexivity. Qed.

Lemma tool_result_has_output r : hasattr (MToolResult r) "output" = true.
Proof. reflexivity. Qed.

Lemma field_truthy_Some s : s ≠ "" → field_truthy (Some s) = true.
Proof.
  intros Hs. unfold field_truthy, Text.truthy. by rewrite bool_decide_false.
Qed.

Lemma field_truthy_empty o : o = None ∨ o = Some "" → field_truthy o = false.
Proof. by intros [-> | ->]. Qed.

Section render.
Variable ToolResult_bool : ToolResult → bool.
Variable b64decode : string → result (list Byte.byte).
(** The external class counts a result with some non-empty field as
    true (as the default truth value of an object does, and as a data
    class that is true when any of its fields is). *)
Hypothesis nonempty_is_true : ∀ r, any_field r = true → ToolResult_bool r = true.

(** A tool result with some non-empty field is never dropped by the
    first test: it is true, and it has its declared attributes. *)
Lemma tool_result_not_suppressed r (st : state) hide :
  any_field r = true → st !! "hide_images" = Some hide →
  suppressed ToolResult_bool (MToolResult r) st = Ok false.
Proof.
  intros Hany Hst. unfold suppressed. cbn [message_bool is_tool_result].
  rewrite (nonempty_is_true r Hany). cbn. unfold read. rewrite Hst. cbn.
  by rewrite andb_false_r.
Qed.

(** C2.  A tool result with a non-empty output is rendered as exactly
    that output, whatever its error and image fields and whatever the
    visibility flag of the state; a tool result with an empty output and a
    non-empty error is rendered as ["Error: "] followed by the error. *)
Theorem render_output_then_error (sender : Sender) (r : ToolResult)
    (st : state) (hide : value) :
  st !! "hide_images" = Some hide →
  (∀ o, output r = Some o → o ≠ "" →
        _render_message ToolResult_bool b64decode sender (MToolResult r) st
        = Ok (Some (DText o))) ∧
  (∀ e, output r = None ∨ output r = Some "" → error r = Some e → e ≠ "" →
        _render_message ToolResult_bool b64decode sender (MToolResult r) st
        = Ok (Some (DText ("Error: " +:+ e)))).
Proof.
  intros Hst. split.
  - intros o Ho Hne. unfold _render_message.
    rewrite (tool_result_not_suppressed r st hide); [|
      by unfold any_field; rewrite Ho, field_truthy_Some | done].
    cbn. by rewrite Ho, field_truthy_Some.
  - intros e Ho He Hne. unfold _render_message.
    rewrite (tool_result_not_suppressed r st hide); [|
      by unfold any_field; rewrite He, field_truthy_Some, orb_true_r | done].
    cbn. rewrite (field_truthy_empty _ Ho), He, field_truthy_Some by done.
    done.
Qed.

(** C3.  A tool result whose output and error are empty and whose image
    payload is not: when the visibility flag of the state is false, it is
    rendered as the bytes that the payload decodes to; when the flag is
    true, nothing is rendered. *)
Theorem render_image_only (sender : Sender) (r : ToolResult) (st : state)
    (hide : value) (img : string) :
  output r = None ∨ output r = Some "" →
  error r = None ∨ error r = Some "" →
  base64_image r = Some img → img ≠ "" →
  st !! "hide_images" = Some hide →
  (truthy hide = false →
   ∀ bytes, b64decode img = Ok bytes →
     _render_message ToolResult_bool b64decode sender (MToolResult r) st
     = Ok (Some (DBytes bytes))) ∧
  (truthy hide = true →
   _render_message ToolResult_bool b64decode sender (MToolResult r) st
   = Ok None).
Proof.
  intros Ho He Hi Hne Hst.
  assert (_render_message ToolResult_bool b64decode sender (MToolResult r) st
          = if negb (truthy hide)
            then bytes ← b64decode img; Ok (Some (DBytes bytes))
            else Ok None) as ->.
  { unfold _render_message.
    rewrite (tool_result_not_suppressed r st hide); [|
      by unfold any_field; rewrite Hi, field_truthy_Some, orb_true_r | done].
    cbn. rewrite (field_truthy_empty _ Ho), (field_truthy_empty _ He).
    rewrite Hi, field_truthy_Some by done. unfold read. rewrite Hst. done. }
  split.
  - intros -> bytes ->. done.
  - intros ->. done.
Qed.
End render.

Lemma render_output_then_error_witness :
  let r := mkToolResult (Some "done") (Some "boom") (Some "aGk=") in
  let st : state := {[ "hide_images" := VBool true ]} in
  st !! "hide_images" = Some (VBool true) ∧
  _render_message any_field b64decode_reference BOT (MToolResult r) st
  = Ok (Some (DText "done")).
Proof.
  cbv zeta. split; [reflexivity|].
  refine (proj1 (render_output_then_error any_field b64decode_reference
                   (λ r H, H) BOT
                   (mkToolResult (Some "done") (Some "boom") (Some "aGk="))
                   {[ "hide_images" := VBool true ]} (VBool true) eq_refl)
            "done" eq_refl _).
  discriminate.
Defined.

Lemma render_image_only_witness :
  let r := mkToolResult None (Some "") (Some "aGk=") in
  let st : state := {[ "hide_images" := VBool false ]} in
  b64decode_reference "aGk=" = Ok [Byte.x68; Byte.x69] ∧
  _render_message any_field b64decode_reference BOT (MToolResult r) st
  = Ok (Some (DBytes [Byte.x68; Byte.x69])).
Proof.
  cbv zeta. split; [reflexivity|].
  refine (proj1 (render_image_only any_field b64decode_reference
                   (λ r H, H) BOT (mkToolResult None (Some "") (Some "aGk="))
                   {[ "hide_images" := VBool false ]} (VBool false) "aGk="
                   (or_introl eq_refl) (or_intror eq_refl) eq_refl _ eq_refl)
            eq_refl _ eq_refl).
  discriminate.
Defined.

End RenderFacts.

(** ** Streaming relay *)
Module RelayFacts.
Import State Relay.

Section dedup.
Context {Msg : Type} `{EqDecision Msg}.

Lemma elem_of_accumulate (seen messages : list Msg) (m : Msg) :
  m ∈ accumulate seen messages ↔ m ∈ messages ∧ m ∉ seen.
Proof.
  revert seen. induction messages as [|x rest IH]; intros seen; cbn.
  - rewrite !elem_of_nil. tauto.
  - destruct (decide (x ∈ seen)) as [Hin|Hout].
    + rewrite IH, elem_of_cons. split; [tauto|].
      intros [[-> | ?] ?]; tauto.
    + rewrite !elem_of_cons, IH, elem_of_app, list_elem_of_singleton.
      split.
      * intros [-> | [? ?]]; tauto.
      * intros [[-> | ?] ?]; [tauto|].
        destruct (decide (m = x)); tauto.
Qed.

Lemma NoDup_accumulate (seen messages : list Msg) :
  NoDup (accumulate seen messages).
Proof.
  revert seen. induction messages as [|x rest IH]; intros seen; cbn.
  - constructor.
  - destruct (decide (x ∈ seen)); [apply IH|].
    constructor; [|apply IH].
    rewrite elem_of_accumulate, elem_of_app, list_elem_of_singleton. tauto.
Qed.

Lemma accumulate_sublist (seen messages : list Msg) :
  accumulate seen messages `sublist_of` messages.
Proof.
  revert seen. induction messages as [|x rest IH]; intros seen; cbn.
  - constructor.
  - destruct (decide (x ∈ seen)).
    + by apply sublist_cons.
    + by apply sublist_skip.
Qed.

Lemma once_in_NoDup (l : list Msg) (m : Msg) :
  NoDup l → m ∈ l → length (filter (λ x, x = m) l) = 1.
Proof.
  induction 1 as [|x l Hx Hl IH]; [by intros ?%elem_of_nil|].
  rewrite elem_of_cons. intros [-> | Hm].
  - rewrite filter_cons_True by done. cbn. f_equal.
    destruct (filter (λ y, y = x) l) as [|y t] eqn:E; [done|].
    assert (y ∈ filter (λ y, y = x) l) as [-> ?]%list_elem_of_filter
      by (rewrite E; left).
    done.
  - rewrite filter_cons_False by (by intros ->). by apply IH.
Qed.

(** C4.  In one call of [accumulate_messages], a value that the agent
    loop yields more than once (values compared by equality) is emitted
    exactly once, and every value that it yields is emitted; the values
    are emitted in the order of their first occurrence. *)
Theorem relay_deduplicates
    (sampling_loop_sync : AgentCall → AgentRun (Msg := Msg)) (call : AgentCall) :
  let adapter := yielded (produced (sampling_loop_sync call)) in
  let emitted := yielded (accumulate_messages sampling_loop_sync call) in
  NoDup emitted ∧
  (∀ m, m ∈ adapter ↔ m ∈ emitted) ∧
  (∀ m, m ∈ adapter → length (filter (λ x, x = m) emitted) = 1) ∧
  emitted `sublist_of` adapter.
Proof.
  cbn. set (adapter := yielded (produced (sampling_loop_sync call))).
  assert (∀ m, m ∈ adapter ↔ m ∈ accumulate [] adapter) as Hmem.
  { intros m. rewrite elem_of_accumulate, elem_of_nil. tauto. }
  split_and!.
  - apply NoDup_accumulate.
  - exact Hmem.
  - intros m Hm. apply once_in_NoDup; [apply NoDup_accumulate | by apply Hmem].
  - apply accumulate_sublist.
Qed.

Section relay.
Variable fmt : Msg → string.
Variable sampling_loop_sync : AgentCall → AgentRun (Msg := Msg).


(** C6, as amended.  For a request to [/api/process-input] without the
    [anthropic-api-key] header, the handler parses the body and does
    nothing else: no session state is built and the agent loop is not
    driven; when the body is a JSON object the response has status 401. *)
Theorem missing_credential_is_rejected (L : LoopModule) (env : Env)
    (screen : option Z) (request : Request) :
  headers request !! "anthropic-api-key" = None →
  (serve_process_input fmt sampling_loop_sync L env screen request).1
    = [ParsedBody] ∧
  (∀ fields, json_body request = Ok (JObject fields) →
     (serve_process_input fmt sampling_loop_sync L env screen request).2
       = ErrorResponse 401 "API Key missing").
Proof.
  intros Hkey. unfold serve_process_input, process_input_api.
  unfold note, lift. rewrite Hkey. cbn [Render.field_truthy negb].
  destruct (json_body request) as [[| | | | |fields]|e]; cbn; (split; [done|]);
    try discriminate; done.
Qed.
End relay.
End dedup.

Lemma missing_credential_is_rejected_witness :
  headers Samples.unauthenticated_request !! "anthropic-api-key" = None ∧
  serve_process_input id Samples.one_shot_agent Samples.sample_loop
    Samples.sample_env None Samples.unauthenticated_request
  = ([ParsedBody], ErrorResponse 401 "API Key missing").
Proof.
  split; [reflexivity|].
  destruct (missing_credential_is_rejected id Samples.one_shot_agent
              Samples.sample_loop Samples.sample_env None
              Samples.unauthenticated_request eq_refl) as [Hdone Hresp].
  specialize (Hresp _ eq_refl).
  destruct (serve_process_input _ _ _ _ _ _) as [done resp].
  cbn in Hdone, Hresp. by rewrite Hdone, Hresp.
Defined.

(** C6, as stated, fails on a request without the header whose body is
    not JSON: the body is parsed before the header is looked at, the parse
    error leaves the handler, and the response has status 500, not 401. *)
Lemma malformed_body_precedes_credential_check :
  headers Samples.malformed_request !! "anthropic-api-key" = None ∧
  serve_process_input id Samples.one_shot_agent Samples.sample_loop
    Samples.sample_env None Samples.malformed_request
  = ([ParsedBody], ErrorResponse 500 "Internal Server Error").
Proof. split; reflexivity. Qed.

Lemma relay_deduplicates_witness :
  "click" ∈ yielded (produced (Samples.repeating_agent
                                 (mkAgentCall VNone VNone VNone VNone VNone VNone None))) ∧
  yielded (accumulate_messages Samples.repeating_agent
             (mkAgentCall VNone VNone VNone VNone VNone VNone None))
    = ["click"; "screenshot"] ∧
  length (filter (λ x, x = "click")
            (yielded (accumulate_messages Samples.repeating_agent
                        (mkAgentCall VNone VNone VNone VNone VNone VNone None))))
    = 1.
Proof.
  assert (Hin : "click" ∈ yielded (produced (Samples.repeating_agent
                  (mkAgentCall VNone VNone VNone VNone VNone VNone None))))
    by apply list_elem_of_here.
  split; [exact Hin|]. split; [reflexivity|].
  destruct (relay_deduplicates Samples.repeating_agent
              (mkAgentCall VNone VNone VNone VNone VNone VNone None))
    as (_ & _ & Honce & _).
  exact (Honce "click" Hin).
Defined.

(** A request with a credential and a well-formed body is streamed. *)
Example authenticated_request_is_streamed :
  serve_process_input id Samples.one_shot_agent Samples.sample_loop
    Samples.sample_env None Samples.authenticated_request
  = ([ParsedBody; BuiltState; DroveAgentLoop],
     StreamingResponse (Gen ["data: clicked" +:+ newline +:+ newline] None)).
Proof. vm_compute. reflexivity. Qed.

End RelayFacts.

(** ** Text *)
Module TextFacts.
Import Text.










End TextFacts.

(** ** The termination phrase *)
Module SentinelFacts.
Import Text TextFacts Orchestrator.




End SentinelFacts.

(** ** Secondary orchestrator *)
Module OrchestratorFacts.
Import State Relay Orchestrator SentinelFacts.

Section orchestrator.
Context {Msg : Type} `{EqDecision Msg}.
Variable fmt : Msg → string.
Variable json_serializable : Msg → bool.
Variable L : LoopModule.
Variable env : Env.
Variable screen : option Z.

Abbreviation while_true := (while_true fmt json_serializable screen).
Abbreviation response_generator :=
  (response_generator fmt json_serializable L env screen).
Abbreviation dumps_ok := (dumps_ok json_serializable).
Abbreviation pass := (pass fmt json_serializable screen).
Abbreviation question := (question fmt).

Lemma while_true_pass (t : turn) (script : list turn) (v : locals) :
  pass t script v (while_true (t :: script) v).
Proof.
  cbn [Orchestrator.while_true].
  destruct (append_user_message _ _) as [st [[]|e]] eqn:Ea;
    [|by apply pass_no_history; rewrite Ea].
  destruct (call_of_state screen st) as [call|e] eqn:Ec;
    [|by eapply pass_no_call].
  assert (raised (accumulate_messages (agent t) call)
          = raised (produced (agent t call))) as Hr by done.
  destruct (raised (accumulate_messages (agent t) call)) as [e|] eqn:Er.
  { by eapply pass_agent_raised. }
  destruct (from_option Some (message v) _) as [m|];
    [|by eapply pass_decide_raised].
  destruct (followup t (question m)) as [[reply|]|e] eqn:Ef; cbn;
    [| by eapply pass_decide_raised..].
  destruct (dumps_ok _) eqn:Ed; cbn.
  - destruct (Text.contains _ _) eqn:Es.
    + by eapply pass_closed.
    + by eapply pass_again.
  - by eapply pass_log_raised.
Qed.












Lemma append_user_message_inv (p : string) (s st : gmap string value) :
  append_user_message p s = (st, Ok tt) →
  ∃ h, s !! "messages" = Some (VList h) ∧
       st = <["messages" := VList (h ++ [user_message p])]> s.
Proof.
  unfold append_user_message, subscript, assign, modify, raise, get.
  unfold mbind, M_bind, mret, M_ret. cbn.
  destruct (s !! "messages") as [[| | | |h|]|]; cbn; intros [=]. eauto.
Qed.

Lemma call_of_state_inv (st : gmap string value) (call : AgentCall) :
  call_of_state screen st = Ok call →
  st !! "messages" = Some (messages call) ∧
  st !! "api_key" = Some (api_key call).
Proof.
  unfold call_of_state, Render.read, mbind, result_bind.
  destruct (st !! "custom_system_prompt"); [|done].
  destruct (st !! "model"); [|done].
  destruct (st !! "provider"); [|done].
  destruct (st !! "messages"); [|done].
  destruct (st !! "tools"); [|done].
  destruct (st !! "responses"); [|done].
  destruct (st !! "api_key"); [|done].
  destruct (st !! "only_n_most_recent_images"); [|done].
  by intros [= <-].
Qed.


(** The history handed to the agent loop in a pass is the history that
    the state holds when the pass begins, followed by the prompt. *)
Lemma first_call_history (script : list turn) (v : locals) call :
  calls (while_true script v) !! 0 = Some call →
  ∃ h, state v !! "messages" = Some (VList h) ∧
       messages call = VList (h ++ [user_message (current_prompt v)]).
Proof.
  destruct script as [|t script]; [done|].
  destruct (while_true_pass t script v) as
    [ e Ha | st e Ha Hc | st call0 e Ha Hc Hr | st call0 e Ha Hc Hr
    | st call0 m reply Ha Hc Hr Hf Hd | st call0 m reply Ha Hc Hr Hf Hs
    | st call0 m reply Ha Hc Hr Hf Hd Hs ];
    cbn [calls before]; cbn; intros [=]; subst call0;
    apply append_user_message_inv in Ha as (h & Hh & ->);
    apply call_of_state_inv in Hc as [Hc _];
    rewrite lookup_insert_eq in Hc; exists h; split; congruence.
Qed.

(** The history handed to the agent loop in the pass after pass [i] is
    the history that the agent loop left in pass [i], followed by the
    follow-up text that became the prompt. *)
Lemma next_call_history (script : list turn) (v : locals) i t c c' :
  script !! i = Some t →
  calls (while_true script v) !! i = Some c →
  calls (while_true script v) !! S i = Some c' →
  ∃ p, FollowUp p ∈ events (while_true script v) ∧
       messages c' = VList (history_after (agent t c) ++ [user_message p]).
Proof.
  revert v i. induction script as [|t0 script IH]; intros v i; [done|].
  destruct (while_true_pass t0 script v) as
    [ e Ha | st e Ha Hc | st call0 e Ha Hc Hr | st call0 e Ha Hc Hr
    | st call0 m reply Ha Hc Hr Hf Hd | st call0 m reply Ha Hc Hr Hf Hs
    | st call0 m reply Ha Hc Hr Hf Hd Hs ];
    cbn [events calls before]; destruct i as [|i]; cbn; try done.
  - intros [= <-] [= <-] Hnext.
    apply first_call_history in Hnext as (h & Hh & ->). cbn in Hh.
    rewrite lookup_insert_eq in Hh. injection Hh as <-.
    exists (Text.strip reply). split; [|done].
    apply elem_of_app. left. apply elem_of_app. right. left.
  - intros Ht Hc0 Hc1. destruct (IH _ _ Ht Hc0 Hc1) as (p & Hp & ->).
    exists p. split; [|done]. apply elem_of_app. by right.
Qed.

(** What [response_generator] does before the loop. *)
Lemma response_generator_cases (plan : planner) (script : list turn)
    (user_input : string) :
  (∃ e, response_generator plan script user_input = mkRun [] [] (Crashed e)) ∨
  (∃ p e, response_generator plan script user_input
          = mkRun [Planned p] [] (Crashed e)) ∨
  (∃ v, response_generator plan script user_input
        = before [Planned (current_prompt v)] [] (while_true script v) ∧
        dumps_ok (conversation_log v) = true ∧
        state v !! "api_key" = Some (VStr LOOP_API_KEY) ∧
        state v !! "messages" = Some (VList [])).
Proof.
  unfold Orchestrator.response_generator.
  destruct (plan user_input ≫= stripped) as [p|e]; [|left; eauto].
  right.
  destruct ((setup_state L env;; assign "api_key" (VStr LOOP_API_KEY)) ∅)
    as [st [[]|e]] eqn:E; [|left; eauto].
  right. eexists (mkLocals st p None [LogText "OpenAI" p]).
  split; [done|]. split; [done|]. cbn.
  apply bind_inv_Ok in E as (s1 & [] & E1 & E2).
  injection E2 as <-. rewrite lookup_insert_eq, lookup_insert_ne by done.
  split; [done|].
  rewrite StateFacts.setup_state_steps in E1.
  destruct (StateFacts.run_steps_defaults (default_of L env) _ _ _
              (StateFacts.setup_steps_ok L env) E1 "messages")
    as [_ ->]; [left | apply lookup_empty | done].
Qed.


(** C9, as amended.  The session state is built once per request,
    before the loop: the history handed to the agent loop in the first
    EXECUTE is the first prompt alone, and the history handed to it in each
    later EXECUTE is the history that the previous EXECUTE left, followed by
    the follow-up text that became the prompt. *)
Theorem execute_appends_to_running_history (plan : planner)
    (script : list turn) (user_input : string) :
  let r := response_generator plan script user_input in
  (∀ call, calls r !! 0 = Some call →
     ∃ p, events r !! 0 = Some (Planned p) ∧
          messages call = VList [user_message p]) ∧
  (∀ i t c c',
     script !! i = Some t → calls r !! i = Some c → calls r !! S i = Some c' →
     ∃ p, FollowUp p ∈ events r ∧
          messages c' = VList (history_after (agent t c) ++ [user_message p])).
Proof.
  intros r. subst r.
  destruct (response_generator_cases plan script user_input)
    as [[e ->] | [(p & e & ->) | (v & -> & _ & _ & Hm)]];
    cbn [events calls ending before app]; [done..|].
  split.
  - intros call (h & Hh & ->)%first_call_history.
    exists (current_prompt v). split; [done|].
    rewrite Hm in Hh. by injection Hh as <-.
  - intros i t c c' Ht Hc Hc'.
    destruct (next_call_history script v i t c c' Ht Hc Hc') as (p & Hp & ->).
    exists p. split; [by right | done].
Qed.


End orchestrator.


Lemma execute_appends_to_running_history_witness :
  let r := response_generator id (λ _, true) Samples.sample_loop
             Samples.sample_env None (Samples.answering "open settings")
             [Samples.continuing_turn; Samples.closing_turn] "save the file" in
  ∃ c, calls r !! 0 = Some c ∧
       ∃ p, events r !! 0 = Some (Planned p) ∧
            messages c = VList [user_message p].
Proof.
  cbv zeta. eexists. split; [vm_compute; reflexivity|].
  refine (proj1 (execute_appends_to_running_history id (λ _, true)
                   Samples.sample_loop Samples.sample_env None
                   (Samples.answering "open settings")
                   [Samples.continuing_turn; Samples.closing_turn]
                   "save the file") _ _).
  vm_compute. reflexivity.
Defined.

(** C9, as stated, fails in the second EXECUTE of a request: the
    history handed to the agent loop still holds the prompt of the first
    EXECUTE, in front of the new one. *)
Lemma second_execute_sees_first_prompt :
  let r := response_generator id (λ _, true) Samples.sample_loop
             Samples.sample_env None (Samples.answering "open settings")
             [Samples.continuing_turn; Samples.closing_turn] "save the file" in
  events r = [Planned "open settings"; AgentResponse "clicked";
              FollowUp "now click save"; AgentResponse "clicked";
              FollowUp "final response."; Closed] ∧
  messages <$> calls r
    = [VList [user_message "open settings"];
       VList [user_message "open settings"; user_message "now click save"]].
Proof. cbv zeta. split; vm_compute; reflexivity. Qed.


(** An exception of the agent loop in the second EXECUTE: the stream
    ends behind the error chunk, and the third pass is never entered. *)
Example failure_ends_the_stream :
  let r := response_generator id (λ _, true) Samples.sample_loop
             Samples.sample_env None (Samples.answering "open settings")
             [Samples.continuing_turn; Samples.failing_turn; Samples.closing_turn]
             "save the file" in
  stream id r
  = Gen ["data: OpenAI Processed Input:" +:+ newline +:+ "open settings"
           +:+ newline +:+ newline;
         "data: Anthropic Response: clicked" +:+ newline +:+ newline;
         "data: OpenAI Follow-Up:" +:+ newline +:+ "now click save"
           +:+ newline +:+ newline;
         "data: Anthropic Response: click" +:+ newline +:+ newline;
         "data: Error from Anthropic: connection reset" +:+ newline +:+ newline]
        None.
Proof. vm_compute. reflexivity. Qed.

End OrchestratorFacts.

(** ** Further properties of the credential store *)
Module StorageMore.
Import Storage Text TextFacts.











End StorageMore.

(** ** Further properties of the session state *)
Module StateMore.
Import State StateFacts.

Lemma run_steps_dom (dflt : state → string → option value) steps
    (st st' : state) r :
  Forall (body_ok dflt) steps → run_steps steps st = (st', r) →
  dom st' ⊆ dom st ∪ list_to_set steps.*1 ∧
  (r = Ok tt → dom st' = dom st ∪ list_to_set steps.*1).
Proof.
  intros Hok. revert st. induction Hok as [|[k b] l Hb Hl IH]; intros st.
  - intros [= <- <-]. cbn. rewrite union_empty_r_L. done.
  - rewrite run_steps_cons. rewrite fmap_cons, list_to_set_cons. cbn [fst].
    destruct (step_cases dflt k b st Hb)
      as [(v & Ek & Eg) | [(v & Ek & Eg & _) | (e & Ek & Eg)]].
    + rewrite (bind_Ok _ _ _ _ _ Eg). intros [Hsub Heq]%IH.
      assert (dom st ∪ ({[k]} ∪ list_to_set l.*1)
              = dom st ∪ list_to_set l.*1) as ->; [|done].
      rewrite (assoc_L (∪)), (comm_L (∪) (dom st) {[k]}).
      rewrite (subseteq_union_1_L {[k]} (dom st)); [done|].
      apply singleton_subseteq_l, elem_of_dom. eauto.
    + rewrite (bind_Ok _ _ _ _ _ Eg). intros [Hsub Heq]%IH.
      rewrite dom_insert_L in Hsub, Heq.
      assert (dom st ∪ ({[k]} ∪ list_to_set l.*1)
              = {[k]} ∪ dom st ∪ list_to_set l.*1) as ->; [|done].
      by rewrite (assoc_L (∪)), (comm_L (∪) (dom st)).
    + rewrite (bind_Raise _ _ _ _ _ Eg). intros [= <- <-].
      split; [apply union_subseteq_l | done].
Qed.

(** X4.  [setup_state] removes no key and adds none but required ones; when
    it returns, the keys of the mapping are the old ones and the required
    ones, nothing else. *)
Theorem setup_state_keys (L : LoopModule) (env : Env) (st : state) :
  dom st ⊆ dom (setup_state L env st).1 ∧
  dom (setup_state L env st).1 ⊆ dom st ∪ list_to_set required_keys ∧
  ((setup_state L env st).2 = Ok tt →
   dom (setup_state L env st).1 = dom st ∪ list_to_set required_keys).
Proof.
  rewrite setup_state_steps.
  destruct (run_steps (setup_steps L env) st) as [st1 r] eqn:E. cbn.
  pose proof (setup_steps_ok L env) as Hok.
  destruct (run_steps_dom _ _ _ _ _ Hok E) as [Hsub Heq].
  split; [|split].
  - apply subseteq_dom. by eapply run_steps_subseteq.
  - exact Hsub.
  - exact Heq.
Qed.

Lemma setup_state_keys_witness :
  (setup_state Samples.sample_loop Samples.sample_env
     {[ "hide_images" := VBool true ]}).2 = Ok tt ∧
  dom (setup_state Samples.sample_loop Samples.sample_env
         {[ "hide_images" := VBool true ]}).1
  = dom ({[ "hide_images" := VBool true ]} : state) ∪ list_to_set required_keys.
Proof.
  assert (Hr : (setup_state Samples.sample_loop Samples.sample_env
                  {[ "hide_images" := VBool true ]}).2 = Ok tt)
    by (vm_compute; reflexivity).
  split; [exact Hr|].
  exact (proj2 (proj2 (setup_state_keys Samples.sample_loop Samples.sample_env
                         {[ "hide_images" := VBool true ]})) Hr).
Defined.

(** X5.  Seven of the required keys do not depend on the host: two calls
    that return, made on the same mapping under different environments,
    disks and platforms, agree on them. *)
Theorem setup_state_host_independent (L : LoopModule) (env env' : Env)
    (st : state) (k : string) :
  k ∈ ["messages"; "api_key"; "auth_validated"; "responses"; "tools";
       "only_n_most_recent_images"; "hide_images"] →
  (setup_state L env st).2 = Ok tt → (setup_state L env' st).2 = Ok tt →
  (setup_state L env st).1 !! k = (setup_state L env' st).1 !! k.
Proof.
  intros Hk. rewrite !setup_state_steps.
  destruct (run_steps (setup_steps L env) st) as [s1 r1] eqn:E1.
  destruct (run_steps (setup_steps L env') st) as [s2 r2] eqn:E2. cbn.
  intros -> ->.
  destruct (st !! k) as [v|] eqn:Ev.
  - rewrite (lookup_weaken st s1 k v Ev), (lookup_weaken st s2 k v Ev); [done|..];
      eapply run_steps_subseteq; eauto using setup_steps_ok.
  - assert (k ∈ (setup_steps L env).*1 ∧ k ∈ (setup_steps L env').*1) as [H1 H2].
    { cbn. repeat (apply elem_of_cons in Hk as [-> | Hk]; [split; in_list|]).
      by apply elem_of_nil in Hk. }
    destruct (run_steps_defaults (default_of L env) _ _ _
                (setup_steps_ok L env) E1 k H1 Ev) as [_ ->].
    destruct (run_steps_defaults (default_of L env') _ _ _
                (setup_steps_ok L env') E2 k H2 Ev) as [_ ->].
    repeat (apply elem_of_cons in Hk as [-> | Hk]; [reflexivity|]).
    by apply elem_of_nil in Hk.
Qed.

Lemma setup_state_host_independent_witness :
  (setup_state Samples.sample_loop Samples.sample_env ∅).1 !! "api_key"
  = (setup_state Samples.sample_loop
       {| getenv := λ _, Some "vertex"; platform_system := "Darwin";
          disk := Samples.protected_host |} ∅).1 !! "api_key".
Proof.
  apply (setup_state_host_independent Samples.sample_loop Samples.sample_env
           {| getenv := λ _, Some "vertex"; platform_system := "Darwin";
              disk := Samples.protected_host |} ∅ "api_key").
  - apply list_elem_of_further, list_elem_of_here.
  - vm_compute. reflexivity.
  - vm_compute. reflexivity.
Defined.

End StateMore.

(** ** Credential validation *)
Module AuthFacts.
Import Auth.

(** X6.  For the Anthropic provider the verdict is decided by the key alone:
    a message when the key is missing or empty, nothing otherwise, whatever
    the cloud libraries would do. *)
Theorem validate_auth_anthropic (P : APIProvider) (cloud : CloudEnv)
    (api_key : option string) :
  distinct P →
  validate_auth P cloud (ANTHROPIC P) api_key
  = Ok (if Render.field_truthy api_key then None
        else Some "Enter your Anthropic API key to continue.").
Proof.
  intros (Hab & Hav & _). unfold validate_auth.
  rewrite bool_decide_true by done.
  destruct (Render.field_truthy api_key); cbn; [|done].
  by rewrite !bool_decide_false.
Qed.

Lemma validate_auth_anthropic_witness :
  distinct MoreSamples.providers ∧
  validate_auth MoreSamples.providers MoreSamples.broken_cloud "anthropic"
    (Some "") = Ok (Some "Enter your Anthropic API key to continue.").
Proof.
  assert (Hd : distinct MoreSamples.providers) by (repeat split; discriminate).
  split; [exact Hd|].
  exact (validate_auth_anthropic MoreSamples.providers MoreSamples.broken_cloud
           (Some "") Hd).
Defined.

(** X7.  For every other provider the key plays no role, and a provider that
    is none of the three is accepted without any check. *)
Theorem validate_auth_ignores_key (P : APIProvider) (cloud : CloudEnv)
    (provider : string) (api_key api_key' : option string) :
  provider ≠ ANTHROPIC P →
  validate_auth P cloud provider api_key
    = validate_auth P cloud provider api_key' ∧
  (provider ≠ BEDROCK P → provider ≠ VERTEX P →
   validate_auth P cloud provider api_key = Ok None).
Proof.
  intros Hp. unfold validate_auth. rewrite bool_decide_false by done. cbn.
  split; [done|]. intros Hb Hv. by rewrite !bool_decide_false.
Qed.

Lemma validate_auth_ignores_key_witness :
  "azure" ≠ ANTHROPIC MoreSamples.providers ∧
  validate_auth MoreSamples.providers MoreSamples.broken_cloud "azure" None
  = Ok None.
Proof.
  assert (Hp : "azure" ≠ ANTHROPIC MoreSamples.providers) by discriminate.
  split; [exact Hp|].
  refine (proj2 (validate_auth_ignores_key MoreSamples.providers
                   MoreSamples.broken_cloud "azure" None None Hp) _ _);
    discriminate.
Defined.

(** X8.  For the Vertex provider the region is tested before the credentials
    are resolved, and only the missing-credentials error of the Google
    library is turned into a message: any other failure of the resolution
    leaves [validate_auth] as an exception. *)
Theorem validate_auth_vertex (P : APIProvider) (cloud : CloudEnv)
    (api_key : option string) :
  distinct P → google_import cloud = Ok tt →
  (Render.field_truthy (CLOUD_ML_REGION cloud) = false →
   validate_auth P cloud (VERTEX P) api_key
   = Ok (Some "Set the CLOUD_ML_REGION environment variable to use the Vertex API.")) ∧
  (Render.field_truthy (CLOUD_ML_REGION cloud) = true →
   validate_auth P cloud (VERTEX P) api_key
   = match google_auth_default cloud with
     | Resolved => Ok None
     | DefaultCredentialsError =>
         Ok (Some "Your google cloud credentials are not set up correctly.")
     | OtherFailure e => Raise e
     end).
Proof.
  intros (Hab & Hav & Hbv) Hi. unfold validate_auth, check_vertex.
  rewrite (bool_decide_false (VERTEX P = ANTHROPIC P)) by done.
  rewrite (bool_decide_false (VERTEX P = BEDROCK P)) by done.
  rewrite bool_decide_true by done. cbn. rewrite Hi. cbn.
  split; intros ->; done.
Qed.

Lemma validate_auth_vertex_witness :
  distinct MoreSamples.providers ∧
  validate_auth MoreSamples.providers MoreSamples.broken_cloud "vertex"
    (Some "sk-live") = Raise (ExternalError "transport error").
Proof.
  assert (Hd : distinct MoreSamples.providers) by (repeat split; discriminate).
  split; [exact Hd|].
  exact (proj2 (validate_auth_vertex MoreSamples.providers
                  MoreSamples.broken_cloud (Some "sk-live") Hd eq_refl) eq_refl).
Defined.

End AuthFacts.

(** ** The callbacks *)
Module CallbackFacts.
Import State Callbacks.

(** X9.  After any series of tool-output callbacks, the dictionary holds for
    each identifier the output of the last callback made for it, and what
    it held before for the identifiers that no callback named. *)
Theorem tool_outputs_last_write_wins (calls : list (ToolResult * string))
    (tool_state : gmap string obj) (tool_id : string) :
  ∃ tool_state',
    replay (λ c, _tool_output_callback c.1 c.2) calls tool_state
      = (tool_state', Ok tt) ∧
    tool_state' !! tool_id
      = match last (filter (λ c, c.2 = tool_id) calls) with
        | Some c => Some (ObjToolResult c.1)
        | None => tool_state !! tool_id
        end.
Proof.
  revert tool_state. induction calls as [|[out id] calls IH]; intros d.
  - by exists d.
  - change (replay (λ c, _tool_output_callback c.1 c.2) ((out, id) :: calls) d)
      with (replay (λ c, _tool_output_callback c.1 c.2) calls
              (<[id := ObjToolResult out]> d)).
    destruct (IH (<[id := ObjToolResult out]> d)) as (d' & -> & Hd').
    exists d'. split; [done|]. rewrite Hd'.
    destruct (decide (id = tool_id)) as [-> | Hne].
    + rewrite filter_cons_True by done.
      destruct (filter _ calls) as [|c fl] eqn:Ef; cbn.
      * by rewrite lookup_insert_eq.
      * rewrite last_cons. by destruct (last fl).
    + rewrite filter_cons_False by done.
      destruct (last _); [done|]. by rewrite lookup_insert_ne.
Qed.

(** X10.  The response dictionary is keyed by the clock reading, so a series
    of callbacks stores at most one response per callback, and exactly one
    per callback only when the readings differ from one another and from
    the keys already there: a repeated reading overwrites a response. *)
Theorem responses_grow_only_by_fresh_readings
    (calls : list (string * string)) (response_state : gmap string obj) :
  ∃ response_state',
    replay (λ c, _api_response_callback c.1 c.2) calls response_state
      = (response_state', Ok tt) ∧
    size response_state' ≤ size response_state + length calls ∧
    (size response_state' = size response_state + length calls ↔
     NoDup calls.*1 ∧ ∀ now, now ∈ calls.*1 → response_state !! now = None).
Proof.
  revert response_state. induction calls as [|[now resp] calls IH]; intros d.
  - exists d. split; [done|]. cbn. split; [lia|]. split; [|lia].
    intros _. split; [constructor|]. by intros ? ?%elem_of_nil.
  - change (replay (λ c, _api_response_callback c.1 c.2) ((now, resp) :: calls) d)
      with (replay (λ c, _api_response_callback c.1 c.2) calls
              (<[now := ObjResponse resp]> d)).
    destruct (IH (<[now := ObjResponse resp]> d)) as (d' & -> & Hle & Hiff).
    exists d'. split; [done|]. cbn [length fmap list_fmap fst].
    destruct (d !! now) as [old|] eqn:Eold.
    + rewrite map_size_insert_Some in Hle, Hiff by eauto.
      split; [lia|]. split; [lia|].
      intros [_ Hfresh]. specialize (Hfresh now (list_elem_of_here _ _)).
      congruence.
    + rewrite map_size_insert_None in Hle, Hiff by done.
      split; [lia|]. rewrite NoDup_cons. split.
      * intros Hs. assert (size d' = S (size d) + length calls) as Hs' by lia.
        apply Hiff in Hs' as [Hnd Hfresh]. split; [split; [|done]|].
        -- intros Hin. specialize (Hfresh _ Hin).
           by rewrite lookup_insert_eq in Hfresh.
        -- intros t [-> | Hin]%elem_of_cons; [done|].
           specialize (Hfresh _ Hin).
           destruct (decide (now = t)) as [-> | Hne];
             [by rewrite lookup_insert_eq in Hfresh|].
           by rewrite lookup_insert_ne in Hfresh.
      * intros [[Hnin Hnd] Hfresh].
        assert (size d' = S (size d) + length calls) as Hs'; [|lia].
        apply Hiff. split; [done|]. intros t Hin.
        rewrite lookup_insert_ne by (by intros ->).
        apply Hfresh. by right.
Qed.

End CallbackFacts.

(** ** Screen selection *)
Module ScreenFacts.
Import Screens.

Lemma index_spec (name : string) (names : list string) :
  match index name names with
  | Some i => names !! i = Some name ∧ ∀ j, j < i → names !! j ≠ Some name
  | None => name ∉ names
  end.
Proof.
  induction names as [|x rest IH]; cbn; [by intros ?%elem_of_nil|].
  destruct (decide (x = name)) as [-> | Hne].
  - split; [done|]. intros j Hj. lia.
  - destruct (index name rest) as [i|]; cbn.
    + destruct IH as [Hi Hmin]. split; [done|].
      intros [|j] Hj; cbn; [congruence|]. apply Hmin. lia.
    + rewrite not_elem_of_cons. split; [congruence | done].
Qed.

(** X11.  A selection that succeeds stores the position of the first screen
    with the selected name, and that position holds the name; a selection
    that fails, because there is no list of screens or because the name is
    not in it, changes neither variable. *)
Theorem update_selected_screen_spec (name : string) (g : globals) :
  match update_selected_screen name g with
  | (g', Ok _) =>
      SCREEN_NAMES g' = SCREEN_NAMES g ∧
      ∃ names i,
        SCREEN_NAMES g = Some names ∧
        SELECTED_SCREEN_INDEX g' = Some (Z.of_nat i) ∧
        names !! i = Some name ∧ ∀ j, j < i → names !! j ≠ Some name
  | (g', Raise _) =>
      g' = g ∧
      (SCREEN_NAMES g = None ∨
       ∃ names, SCREEN_NAMES g = Some names ∧ name ∉ names)
  end.
Proof.
  unfold update_selected_screen, mbind, M_bind, get, raise, modify.
  destruct g as [sel [names|]]; cbn; [|by split; [|left]].
  pose proof (index_spec name names) as Hi.
  destruct (index name names) as [i|]; cbn.
  - split; [done|]. exists names, i. by destruct Hi.
  - split; [done|]. right. by exists names.
Qed.

End ScreenFacts.

(** ** Further properties of the renderer *)
Module RenderMore.
Import State Render RenderFacts.

Section render.
Variable ToolResult_bool : ToolResult → bool.
Variable b64decode : string → result (list Byte.byte).

(** X12.  The first test drops a message exactly when the message is false:
    the clause on the visibility flag never drops anything, because a tool
    result always has its [error] and [output] attributes. *)
Theorem first_test_is_truth_value (m : message) (st : state) :
  (is_tool_result m = true → is_Some (st !! "hide_images")) →
  suppressed ToolResult_bool m st = Ok (negb (message_bool ToolResult_bool m)).
Proof.
  intros Hst. unfold suppressed.
  destruct (message_bool ToolResult_bool m) eqn:Eb; cbn; [|done].
  destruct m as [s|t|n i|r]; cbn; try done.
  destruct (Hst eq_refl) as [hide Eh]. unfold read. rewrite Eh. cbn.
  by rewrite andb_false_r.
Qed.

(** X13.  A message that is not a tool result is rendered without reading the
    state and without raising, and only the empty text renders as nothing. *)
Theorem render_plain_message (sender : Sender) (m : message) (st st' : state) :
  is_tool_result m = false →
  _render_message ToolResult_bool b64decode sender m st
    = _render_message ToolResult_bool b64decode sender m st' ∧
  ∃ d, _render_message ToolResult_bool b64decode sender m st = Ok d ∧
       (d = None ↔ m = MStr "").
Proof.
  intros Hm. unfold _render_message, suppressed.
  destruct m as [s|t|n i|r]; cbn in *; try done.
  - split; [done|]. unfold Text.truthy.
    destruct (decide (s = "")) as [-> | Hs].
    + eexists. split; [done|]. done.
    + rewrite bool_decide_false by done. cbn. eexists. split; [done|].
      split; [done|]. by intros [= ->].
  - split; [done|]. eexists. split; [done|]. done.
  - split; [done|]. eexists. split; [done|]. done.
Qed.

(** X14.  A tool result none of whose fields is set renders as nothing,
    whatever truth value its class gives it. *)
Theorem render_empty_tool_result (sender : Sender) (r : ToolResult) (st : state) :
  is_Some (st !! "hide_images") →
  any_field r = false →
  _render_message ToolResult_bool b64decode sender (MToolResult r) st = Ok None.
Proof.
  intros Hst Hr. unfold _render_message.
  rewrite first_test_is_truth_value by done. cbn.
  destruct (ToolResult_bool r); cbn; [|done].
  unfold any_field in Hr.
  apply orb_false_iff in Hr as [[Ho He]%orb_false_iff Hi].
  by rewrite Ho, He, Hi.
Qed.

Hypothesis nonempty_is_true : ∀ r, any_field r = true → ToolResult_bool r = true.

(** X15.  Rendering a tool result with a set field on a state without the
    visibility flag raises [KeyError], also when the result has an output. *)
Theorem render_without_flag (sender : Sender) (r : ToolResult) (st : state) :
  st !! "hide_images" = None → any_field r = true →
  _render_message ToolResult_bool b64decode sender (MToolResult r) st
  = Raise (KeyError "hide_images").
Proof.
  intros Hst Hr. unfold _render_message, suppressed. cbn.
  rewrite (nonempty_is_true r Hr). cbn. unfold read. by rewrite Hst.
Qed.

(** X16.  On a state with the visibility flag, rendering a tool result raises
    only in one way: the result carries an image alone, the flag is false,
    and the decoder rejects the payload; the exception is the decoder's. *)
Theorem render_raises_only_from_decoder (sender : Sender) (r : ToolResult)
    (st : state) (hide : value) (e : exn) :
  st !! "hide_images" = Some hide →
  (_render_message ToolResult_bool b64decode sender (MToolResult r) st = Raise e
   ↔ field_truthy (output r) = false ∧ field_truthy (error r) = false ∧
     field_truthy (base64_image r) = true ∧ truthy hide = false ∧
     b64decode (default "" (base64_image r)) = Raise e).
Proof.
  intros Hst. unfold _render_message.
  rewrite first_test_is_truth_value by eauto. cbn.
  destruct (ToolResult_bool r) eqn:Eb; cbn.
  - destruct (field_truthy (output r)) eqn:Eo; cbn.
    { split; [by destruct (output r) | by intros [? _]]. }
    destruct (field_truthy (error r)) eqn:Ee; cbn.
    { split; [done | by intros (_ & ? & _)]. }
    destruct (field_truthy (base64_image r)) eqn:Ei; cbn.
    2:{ split; [done | by intros (_ & _ & ? & _)]. }
    unfold read. rewrite Hst. cbn.
    destruct (truthy hide); cbn.
    { split; [done | by intros (_ & _ & _ & ? & _)]. }
    destruct (b64decode _) as [bytes|e']; cbn.
    + split; [done | by intros (_ & _ & _ & _ & ?)].
    + split; [by intros [= ->] | by intros (_ & _ & _ & _ & [= ->])].
  - split; [done|]. intros (Ho & He & Hi & _).
    rewrite nonempty_is_true in Eb; [done|].
    unfold any_field. by rewrite Hi, orb_true_r.
Qed.
End render.

Lemma first_test_is_truth_value_witness :
  suppressed any_field (MToolResult (mkToolResult None None (Some "aGk=")))
    {[ "hide_images" := VBool true ]} = Ok false.
Proof.
  apply (first_test_is_truth_value any_field
           (MToolResult (mkToolResult None None (Some "aGk=")))
           {[ "hide_images" := VBool true ]}).
  intros _. by exists (VBool true).
Defined.

Lemma render_plain_message_witness :
  _render_message any_field b64decode_reference BOT (MStr "") ∅ = Ok None.
Proof.
  destruct (render_plain_message any_field b64decode_reference BOT (MStr "")
              ∅ ∅ eq_refl) as (_ & d & -> & Hd).
  f_equal. by apply Hd.
Defined.

Lemma render_empty_tool_result_witness :
  _render_message (λ _, true) b64decode_reference BOT
    (MToolResult (mkToolResult None (Some "") None))
    {[ "hide_images" := VBool false ]} = Ok None.
Proof.
  apply render_empty_tool_result; [by exists (VBool false) | reflexivity].
Defined.

Lemma render_without_flag_witness :
  _render_message any_field b64decode_reference BOT
    (MToolResult (mkToolResult (Some "done") None None)) ∅
  = Raise (KeyError "hide_images").
Proof.
  apply (render_without_flag any_field b64decode_reference (λ r H, H));
    reflexivity.
Defined.

Lemma render_raises_only_from_decoder_witness :
  _render_message any_field b64decode_reference BOT
    (MToolResult (mkToolResult None None (Some "aGk")))
    {[ "hide_images" := VBool false ]}
  = Raise (BinasciiError "Incorrect padding").
Proof.
  assert (Hst : ({[ "hide_images" := VBool false ]} : state) !! "hide_images"
                = Some (VBool false)) by reflexivity.
  apply (render_raises_only_from_decoder any_field b64decode_reference
           (λ r H, H) BOT (mkToolResult None None (Some "aGk"))
           {[ "hide_images" := VBool false ]} (VBool false)
           (BinasciiError "Incorrect padding") Hst).
  repeat split; reflexivity.
Defined.

End RenderMore.

(** ** Further properties of the relay *)
Module RelayMore.
Import State Relay RelayFacts.

Section dedup.
Context {Msg : Type} `{EqDecision Msg}.

(** X17.  What the relay emits for the beginning of a sequence does not depend
    on how the sequence goes on: the loop run over [l1 ++ l2] emits what it
    emits for [l1], then what it emits for [l2] with everything accumulated
    so far taken as seen. *)
Theorem accumulate_app (seen l1 l2 : list Msg) :
  accumulate seen (l1 ++ l2)
  = accumulate seen l1 ++ accumulate (seen ++ accumulate seen l1) l2.
Proof.
  revert seen. induction l1 as [|x l1 IH]; intros seen; cbn.
  - by rewrite app_nil_r.
  - destruct (decide (x ∈ seen)); [apply IH|].
    cbn. f_equal. rewrite IH. by rewrite <- app_assoc.
Qed.

(** A sequence without repetitions, none of whose values has been seen,
    is relayed as it is. *)
Lemma accumulate_NoDup (seen l : list Msg) :
  NoDup l → (∀ x, x ∈ l → x ∉ seen) → accumulate seen l = l.
Proof.
  intros Hl. revert seen. induction Hl as [|x l Hx Hl IH]; intros seen Hs; cbn.
  - done.
  - rewrite decide_False by (apply Hs; left). f_equal. apply IH.
    intros y Hy [Hin | ->%list_elem_of_singleton]%elem_of_app; [|done].
    by apply (Hs y); [right|].
Qed.

(** X18.  The relay leaves a sequence without repetitions unchanged, hence
    relaying what the relay has emitted changes nothing. *)
Theorem accumulate_idempotent (l : list Msg) :
  (NoDup l → accumulate [] l = l) ∧
  accumulate [] (accumulate [] l) = accumulate [] l.
Proof.
  assert (∀ k : list Msg, NoDup k → accumulate [] k = k) as Hfix.
  { intros k Hk. apply accumulate_NoDup; [done|]. by intros ? _ ?%elem_of_nil. }
  split; [apply Hfix|]. apply Hfix, NoDup_accumulate.
Qed.

Section chat.
Variable sampling_loop_sync : AgentCall → AgentRun (Msg := Msg).
Variable L : LoopModule.
Variable env : Env.
Variable screen : option Z.

Lemma setup_state_ready (st st1 : state) :
  setup_state L env st = (st1, Ok tt) →
  st ⊆ st1 ∧ (∀ k, k ∈ required_keys → is_Some (st1 !! k)) ∧
  (st !! "api_key" = None → st1 !! "api_key" = Some (VStr ANTHROPIC_KEY)) ∧
  (st !! "messages" = None → st1 !! "messages" = Some (VList [])).
Proof.
  rewrite StateFacts.setup_state_steps. intros E.
  pose proof (StateFacts.setup_steps_ok L env) as Hok.
  pose proof (StateFacts.run_steps_subseteq _ _ _ _ _ Hok E) as Hsub.
  split; [done|]. split; [|split].
  - intros k Hk. destruct (st !! k) as [v|] eqn:Ev.
    + exists v. by eapply lookup_weaken.
    + by destruct (StateFacts.run_steps_defaults _ _ _ _ Hok E k Hk Ev).
  - intros Ev.
    destruct (StateFacts.run_steps_defaults _ _ _ _ Hok E "api_key") as [_ ->];
      [in_list | done | done].
  - intros Ev.
    destruct (StateFacts.run_steps_defaults _ _ _ _ Hok E "messages") as [_ ->];
      [in_list | done | done].
Qed.

Lemma call_of_state_present (st : state) :
  (∀ k, k ∈ required_keys → is_Some (st !! k)) →
  ∃ call, call_of_state screen st = Ok call ∧
          st !! "messages" = Some (messages call) ∧
          st !! "api_key" = Some (api_key call).
Proof.
  intros Hk. unfold call_of_state, Render.read, mbind, result_bind.
  destruct (Hk "custom_system_prompt" ltac:(in_list)) as [? ->].
  destruct (Hk "model" ltac:(in_list)) as [? ->].
  destruct (Hk "provider" ltac:(in_list)) as [? ->].
  destruct (Hk "messages" ltac:(in_list)) as [? ->].
  destruct (Hk "tools" ltac:(in_list)) as [? ->].
  destruct (Hk "responses" ltac:(in_list)) as [? ->].
  destruct (Hk "api_key" ltac:(in_list)) as [? ->].
  destruct (Hk "only_n_most_recent_images" ltac:(in_list)) as [? ->].
  eexists. split; [done|]. done.
Qed.

(** X19.  After an initialisation that returns, of a mapping that held no
    credential, [yield_message] does not raise its missing-key error: it
    relays the agent loop, called with the credential built into the
    program. *)
Theorem yield_message_after_setup (st : state) :
  (setup_state L env st).2 = Ok tt → st !! "api_key" = None →
  ∃ call,
    call_of_state screen (setup_state L env st).1 = Ok call ∧
    api_key call = VStr ANTHROPIC_KEY ∧
    yield_message sampling_loop_sync screen (setup_state L env st).1
      = accumulate_messages sampling_loop_sync call.
Proof.
  destruct (setup_state L env st) as [st1 r] eqn:E. cbn. intros -> Hk.
  destruct (setup_state_ready _ _ E) as (_ & Hall & Hkey & _).
  destruct (call_of_state_present st1 Hall) as (call & Hc & _ & Ha).
  exists call. split; [done|]. rewrite (Hkey Hk) in Ha. injection Ha as <-.
  split; [done|]. unfold yield_message. rewrite (Hkey Hk), Hc. done.
Qed.

(** X20.  [process_input] on a mapping whose history is a list keeps every
    other entry of the mapping, keeps the history and puts the new user
    message behind it, and yields exactly one item, which carries that
    mapping; no mapping ([None]) is treated as an empty one. *)
Theorem process_input_appends (user_input : string) (st : state)
    (h : list Message) :
  (setup_state L env st).2 = Ok tt → st !! "messages" = Some (VList h) →
  ∃ st1,
    Chat.process_input sampling_loop_sync L env screen user_input (Some st)
      = (st1, Gen [(yield_message sampling_loop_sync screen st1, st1)] None) ∧
    st1 !! "messages" = Some (VList (h ++ [user_message user_input])) ∧
    (∀ k v, k ≠ "messages" → st !! k = Some v → st1 !! k = Some v) ∧
    Chat.process_input sampling_loop_sync L env screen user_input None
      = Chat.process_input sampling_loop_sync L env screen user_input (Some ∅).
Proof.
  intros Hr Hm. unfold Chat.process_input. cbn [default].
  destruct (setup_state L env st) as [s1 r] eqn:E. cbn in Hr. subst r.
  destruct (setup_state_ready _ _ E) as (Hsub & _ & _ & _).
  pose proof (lookup_weaken _ _ _ _ Hm Hsub) as Hm1.
  rewrite (bind_Ok _ _ _ _ _ E).
  unfold append_user_message. run_monad. rewrite Hm1. cbn.
  eexists. split; [done|]. split; [by rewrite lookup_insert_eq|].
  split; [|done]. intros k v Hk Hv. rewrite lookup_insert_ne by done.
  by eapply lookup_weaken.
Qed.
End chat.
End dedup.

Lemma accumulate_idempotent_witness :
  NoDup ["click"; "screenshot"] ∧
  accumulate [] ["click"; "screenshot"] = ["click"; "screenshot"].
Proof.
  assert (Hn : NoDup ["click"; "screenshot"]).
  { apply NoDup_cons. split; [|apply NoDup_singleton].
    by intros [=]%list_elem_of_singleton. }
  split; [exact Hn|].
  exact (proj1 (accumulate_idempotent ["click"; "screenshot"]) Hn).
Defined.

Lemma yield_message_after_setup_witness :
  ∃ call,
    call_of_state None (setup_state Samples.sample_loop Samples.sample_env ∅).1
      = Ok call ∧
    api_key call = VStr ANTHROPIC_KEY ∧
    yield_message Samples.repeating_agent None
      (setup_state Samples.sample_loop Samples.sample_env ∅).1
    = accumulate_messages Samples.repeating_agent call.
Proof.
  apply yield_message_after_setup; [vm_compute; reflexivity | reflexivity].
Defined.

Lemma process_input_appends_witness :
  ∃ st1,
    Chat.process_input Samples.repeating_agent Samples.sample_loop
      Samples.sample_env None "save the file"
      (Some {[ "messages" := VList [user_message "open settings"] ]})
    = (st1, Gen [(yield_message Samples.repeating_agent None st1, st1)] None) ∧
    st1 !! "messages"
    = Some (VList [user_message "open settings"; user_message "save the file"]).
Proof.
  destruct (process_input_appends Samples.repeating_agent Samples.sample_loop
              Samples.sample_env None "save the file"
              {[ "messages" := VList [user_message "open settings"] ]}
              [user_message "open settings"])
    as (st1 & E & Hm & _); [vm_compute; reflexivity | reflexivity |].
  exists st1. by split.
Defined.

End RelayMore.

(** ** Further properties of the HTTP handlers *)
Module HandlerMore.
Import State Relay Orchestrator Behaviour.

Section handlers.
Context {Msg : Type} `{EqDecision Msg}.
Variable fmt : Msg → string.
Variable json_serializable : Msg → bool.
Variable sampling_loop_sync : AgentCall → AgentRun (Msg := Msg).
Variable L : LoopModule.
Variable env : Env.
Variable screen : option Z.

(** The handler, stage by stage. *)
Lemma process_input_api_stages (request : Request) :
  process_input_api fmt sampling_loop_sync L env screen request []
  = match json_body request with
    | Raise e => ([ParsedBody], Raise e)
    | Ok data =>
        match json_get data "user_input" with
        | Raise e => ([ParsedBody], Raise e)
        | Ok user_input =>
            if negb (Render.field_truthy (headers request !! "anthropic-api-key"))
            then ([ParsedBody], Raise (HTTPException 401 "API Key missing"))
            else
              match (setup_state L env;;
                     assign "api_key"
                       (VStr (default "" (headers request !! "anthropic-api-key")));;
                     text ← lift (text_field user_input);
                     append_user_message text) ∅ with
              | (_, Raise e) => ([ParsedBody; BuiltState], Raise e)
              | (st, Ok _) =>
                  ([ParsedBody; BuiltState; DroveAgentLoop],
                   Ok (StreamingResponse
                         (message_generator fmt sampling_loop_sync screen st)))
              end
        end
    end.
Proof.
  unfold process_input_api, note, lift.
  destruct (json_body request) as [data|e]; [|reflexivity].
  unfold mbind at 1 2 3, M_bind at 1 2 3, modify, mret, M_ret.
  destruct (json_get data "user_input") as [user_input|e]; [|reflexivity].
  destruct (negb _); [reflexivity|].
  unfold mbind at 1, M_bind at 1.
  match goal with
  | |- context [match ?c ∅ with _ => _ end] => destruct (c ∅) as [st [[]|e]]
  end; reflexivity.
Qed.

(** X21.  A request with a credential and a text as [user_input] gets a
    session of its own: the agent loop is called with the credential of the
    request, not the one built into the program, and with a history that
    holds the message of the request and nothing else. *)
Theorem request_credential_reaches_agent_loop (request : Request)
    (key input : string) (fields : list (string * json)) :
  headers request !! "anthropic-api-key" = Some key → key ≠ "" →
  json_body request = Ok (JObject fields) →
  json_get (JObject fields) "user_input" = Ok (Some (JString input)) →
  (setup_state L env ∅).2 = Ok tt →
  ∃ st call,
    serve_process_input fmt sampling_loop_sync L env screen request
      = ([ParsedBody; BuiltState; DroveAgentLoop],
         StreamingResponse (message_generator fmt sampling_loop_sync screen st)) ∧
    call_of_state screen st = Ok call ∧
    api_key call = VStr key ∧
    messages call = VList [user_message input].
Proof.
  intros Hkey Hne Hbody Hget Hsetup.
  destruct (setup_state L env ∅) as [s1 r] eqn:E. cbn in Hsetup. subst r.
  destruct (RelayMore.setup_state_ready L env _ _ E) as (_ & Hall & _ & Hm).
  specialize (Hm (lookup_empty _)).
  set (st := <["messages" := VList [user_message input]]>
               (<["api_key" := VStr key]> s1)).
  assert ((setup_state L env;;
           assign "api_key" (VStr key);;
           text ← lift (text_field (Some (JString input)));
           append_user_message text) ∅ = (st, Ok tt)) as Hrun.
  { rewrite (bind_Ok _ _ _ _ _ E). unfold append_user_message. run_monad.
    rewrite lookup_insert_ne by done. rewrite Hm. done. }
  assert (∀ k, k ∈ required_keys → is_Some (st !! k)) as Hall'.
  { intros k Hk. unfold st.
    destruct (decide (k = "messages")) as [-> | ?];
      [rewrite lookup_insert_eq; eauto | rewrite lookup_insert_ne by done].
    destruct (decide (k = "api_key")) as [-> | ?];
      [rewrite lookup_insert_eq; eauto | rewrite lookup_insert_ne by done].
    by apply Hall. }
  destruct (RelayMore.call_of_state_present screen st Hall')
    as (call & Hc & Hcm & Hca).
  exists st, call. split; [|split; [done|]].
  - unfold serve_process_input. rewrite process_input_api_stages.
    rewrite Hbody, Hget, Hkey. cbn [Render.field_truthy default].
    unfold Text.truthy. rewrite bool_decide_false by done. cbn [negb].
    change (id key) with key. rewrite Hrun. done.
  - unfold st in Hcm, Hca. rewrite lookup_insert_eq in Hcm.
    rewrite lookup_insert_ne, lookup_insert_eq in Hca by done.
    split; congruence.
Qed.

(** X22.  A request with a credential whose [user_input] is missing or is not
    a text is answered with status 500, after the session state has been
    built and before the agent loop is driven. *)
Theorem bad_user_input_is_server_error (request : Request) (key : string)
    (data : json) (v : option json) (e : exn) :
  headers request !! "anthropic-api-key" = Some key → key ≠ "" →
  json_body request = Ok data → json_get data "user_input" = Ok v →
  text_field v = Raise e →
  (setup_state L env ∅).2 = Ok tt →
  serve_process_input fmt sampling_loop_sync L env screen request
    = ([ParsedBody; BuiltState], ErrorResponse 500 "Internal Server Error").
Proof.
  intros Hkey Hne Hbody Hget Htext Hsetup.
  destruct (setup_state L env ∅) as [s1 r] eqn:E. cbn in Hsetup. subst r.
  assert (e = TypeError "1 validation error for TextBlock") as ->.
  { unfold text_field in Htext. by destruct v as [[]|]; simplify_eq. }
  unfold serve_process_input. rewrite process_input_api_stages.
  rewrite Hbody, Hget, Hkey. cbn [Render.field_truthy default].
  unfold Text.truthy. rewrite bool_decide_false by done. cbn [negb].
  rewrite (bind_Ok _ _ _ _ _ E). unfold lift. rewrite Htext. done.
Qed.

Lemma dumps_ok_all (log : list (logged Msg)) :
  (∀ m, json_serializable m = true) → dumps_ok json_serializable log = true.
Proof.
  intros Hj. unfold dumps_ok. apply forallb_forall.
  intros [role content|m] _; [done | apply Hj].
Qed.

Lemma ready_pass (p : string) (st : gmap string value) :
  ready st →
  ∃ st' call,
    append_user_message p st = (st', Ok tt) ∧
    call_of_state screen st' = Ok call ∧
    ∀ h, ready (<["messages" := VList h]> st').
Proof.
  intros ([h Hm] & Hs & Hmo & Hp & Ht & Hr & Hk & Hn).
  set (st' := <["messages" := VList (h ++ [user_message p])]> st).
  assert (∀ h', ready (<["messages" := VList h']> st')) as Hready.
  { intros h'. unfold ready, st'. rewrite insert_insert_eq.
    rewrite lookup_insert_eq, !lookup_insert_ne by done. eauto 10. }
  assert (∃ call, call_of_state screen st' = Ok call) as [call Hc].
  { unfold call_of_state, Render.read, mbind, result_bind, st'.
    rewrite lookup_insert_eq, !lookup_insert_ne by done.
    destruct Hs as [? ->], Hmo as [? ->], Hp as [? ->], Ht as [? ->],
             Hr as [? ->], Hk as [? ->], Hn as [? ->]. eauto. }
  exists st', call. split; [|done].
  unfold append_user_message. run_monad. by rewrite Hm.
Qed.

Lemma while_true_keeps_going (script : list turn) (v : locals) :
  (∀ m, json_serializable m = true) → Forall keeps_going script →
  ready (state v) →
  ending (while_true fmt json_serializable screen script v) = Running ∧
  length (calls (while_true fmt json_serializable screen script v))
    = length script.
Proof.
  intros Hj Hs. revert v. induction Hs as [|t script [Ha Hf] _ IH]; intros v Hv.
  { done. }
  destruct (ready_pass (current_prompt v) _ Hv) as (st' & call & E1 & E2 & Hr).
  cbn [while_true]. rewrite E1, E2.
  destruct (Ha call) as [Hnone Hne].
  change (raised (accumulate_messages (agent t) call))
    with (raised (produced (agent t call))). rewrite Hnone.
  destruct (yielded (accumulate_messages (agent t) call)) as [|y ys] eqn:Ey.
  { exfalso. cbn in Ey. destruct (yielded (produced (agent t call))); [done|].
    cbn in Ey. by rewrite decide_False in Ey by by intros ?%elem_of_nil. }
  destruct (last (y :: ys)) as [m|] eqn:El;
    [|by apply last_None in El]. cbn [from_option].
  destruct (Hf (question fmt m)) as (reply & -> & Hno). cbn.
  rewrite dumps_ok_all by done. cbn. rewrite Hno.
  cbn [ending calls before length app].
  match goal with
  | |- context [while_true fmt json_serializable screen script ?v'] =>
      destruct (IH v' (Hr _)) as [-> ->]
  end.
  done.
Qed.

(** X23.  The loop has no bound on its passes: as long as the agent loop
    yields something without raising and the planning model answers
    without the phrase, every pass is followed by another one. *)
Theorem loop_has_no_iteration_cap (plan : planner) (script : list turn)
    (user_input p : string) :
  plan user_input ≫= stripped = Ok p →
  (setup_state L env ∅).2 = Ok tt →
  (∀ m, json_serializable m = true) →
  Forall keeps_going script →
  ending (response_generator fmt json_serializable L env screen plan script
            user_input) = Running ∧
  length (calls (response_generator fmt json_serializable L env screen plan
                   script user_input)) = length script.
Proof.
  intros Hp Hsetup Hj Hs. unfold response_generator. rewrite Hp.
  destruct (setup_state L env ∅) as [s1 r] eqn:E. cbn in Hsetup. subst r.
  rewrite (bind_Ok _ _ _ _ _ E). unfold assign, modify. cbn [ending calls before app].
  apply while_true_keeps_going; [done..|]. cbn.
  destruct (RelayMore.setup_state_ready L env _ _ E) as (_ & Hall & _ & Hm).
  specialize (Hm (lookup_empty _)).
  unfold ready. rewrite lookup_insert_eq, !lookup_insert_ne by done.
  split; [eauto|]. split_and!; try (apply Hall; in_list). eauto.
Qed.

(** X24.  A first EXECUTE in which the agent loop yields nothing has no
    message to ask the planning model about: the request ends there, with
    the breakdown chunk as its only chunk and with the exception of the
    outer handler. *)
Theorem silent_first_execute_crashes (plan : planner) (t : turn)
    (script : list turn) (user_input p : string) :
  plan user_input ≫= stripped = Ok p →
  (setup_state L env ∅).2 = Ok tt →
  (∀ call, produced (agent t call) = Gen [] None) →
  ∃ call,
    response_generator fmt json_serializable L env screen plan (t :: script)
      user_input
    = mkRun [Planned p] [call] (Crashed (UnboundLocalError "message")) ∧
    stream fmt (response_generator fmt json_serializable L env screen plan
                  (t :: script) user_input)
    = Gen [chunk fmt (Planned p)] (Some outer_handler_error).
Proof.
  intros Hp Hsetup Hsilent. unfold response_generator. rewrite Hp.
  destruct (setup_state L env ∅) as [s1 r] eqn:E. cbn in Hsetup. subst r.
  rewrite (bind_Ok _ _ _ _ _ E). unfold assign, modify.
  destruct (RelayMore.setup_state_ready L env _ _ E) as (_ & Hall & _ & Hm).
  specialize (Hm (lookup_empty _)).
  assert (ready (<["api_key" := VStr LOOP_API_KEY]> s1)) as Hready.
  { unfold ready. rewrite lookup_insert_eq, !lookup_insert_ne by done.
    split; [eauto|]. split_and!; try (apply Hall; in_list). eauto. }
  destruct (ready_pass p _ Hready) as (st' & call & E1 & E2 & _).
  exists call. cbn [while_true state current_prompt message].
  rewrite E1, E2. unfold accumulate_messages. rewrite Hsilent. cbn. done.
Qed.
End handlers.

Lemma request_credential_reaches_agent_loop_witness :
  ∃ st call,
    serve_process_input id Samples.one_shot_agent Samples.sample_loop
      Samples.sample_env None Samples.authenticated_request
    = ([ParsedBody; BuiltState; DroveAgentLoop],
       StreamingResponse (message_generator id Samples.one_shot_agent None st)) ∧
    call_of_state None st = Ok call ∧
    api_key call = VStr "sk-live" ∧
    messages call = VList [user_message "open the browser"].
Proof.
  apply (request_credential_reaches_agent_loop id Samples.one_shot_agent
           Samples.sample_loop Samples.sample_env None
           Samples.authenticated_request "sk-live" "open the browser"
           [("user_input", JString "open the browser")]);
    first [discriminate | vm_compute; reflexivity].
Defined.

Lemma bad_user_input_is_server_error_witness :
  serve_process_input id Samples.one_shot_agent Samples.sample_loop
    Samples.sample_env None MoreSamples.request_without_input
  = ([ParsedBody; BuiltState], ErrorResponse 500 "Internal Server Error").
Proof.
  apply (bad_user_input_is_server_error id Samples.one_shot_agent
           Samples.sample_loop Samples.sample_env None
           MoreSamples.request_without_input "sk-live"
           (JObject [("prompt", JString "open the browser")]) None
           (TypeError "1 validation error for TextBlock"));
    first [discriminate | vm_compute; reflexivity].
Defined.

Lemma loop_has_no_iteration_cap_witness :
  ending (response_generator id (λ _, true) Samples.sample_loop
            Samples.sample_env None (Samples.answering "open settings")
            (replicate 5 Samples.continuing_turn) "save the file") = Running ∧
  length (calls (response_generator id (λ _, true) Samples.sample_loop
                   Samples.sample_env None (Samples.answering "open settings")
                   (replicate 5 Samples.continuing_turn) "save the file")) = 5.
Proof.
  apply (loop_has_no_iteration_cap id (λ _, true) Samples.sample_loop
           Samples.sample_env None (Samples.answering "open settings")
           (replicate 5 Samples.continuing_turn) "save the file"
           "open settings").
  - reflexivity.
  - vm_compute. reflexivity.
  - done.
  - apply Forall_replicate. split.
    + intros call. split; [reflexivity | discriminate].
    + intros q. exists "now click save". split; reflexivity.
Defined.

Lemma silent_first_execute_crashes_witness :
  ∃ call,
    response_generator id (λ _, true) Samples.sample_loop Samples.sample_env
      None (Samples.answering "open settings")
      [MoreSamples.silent_turn; Samples.closing_turn] "save the file"
    = mkRun [Planned "open settings"] [call]
        (Crashed (UnboundLocalError "message")) ∧
    stream id (response_generator id (λ _, true) Samples.sample_loop
                 Samples.sample_env None (Samples.answering "open settings")
                 [MoreSamples.silent_turn; Samples.closing_turn] "save the file")
    = Gen [chunk id (Planned "open settings")] (Some outer_handler_error).
Proof.
  apply (silent_first_execute_crashes id (λ _, true) Samples.sample_loop
           Samples.sample_env None (Samples.answering "open settings")
           MoreSamples.silent_turn [Samples.closing_turn] "save the file"
           "open settings").
  - reflexivity.
  - vm_compute. reflexivity.
  - reflexivity.
Defined.

End HandlerMore.
